(** * Worker pipeline of the event-driven task processor

    A shallow embedding of the worker side of the repository:

      - [shared/schemas.py]          the [TaskPayload] envelope and its defaults,
      - [worker/app/config.py]       [WorkerSettings] and its default values,
      - [worker/app/idempotency.py]  [_key], [is_duplicate], [mark_processed],
      - [worker/app/retry_handler.py] [handle_failure], [_republish_task],
                                     [_publish_to_dlq],
      - [worker/app/consumer.py]     the handlers, [TASK_HANDLERS] and
                                     [process_message],
      - [worker/app/worker.py]       [_declare_infrastructure].

    Python code that raises and mutates is written in a state-and-exception
    monad over a [World]: the Redis key space, a wall clock, the number of
    UUIDs drawn so far, and the chronological trace of every call made to
    the broker, to Redis, to [time.sleep], to the logger and to a handler.

    Modelling conventions.
      - pika, redis, time and logging are external libraries: a call to them
        is a primitive that records an event and returns; exceptions are
        modelled where the repository raises or catches them on purpose
        (json/pydantic rejection of a body, a handler that raises).
      - A message body is identified with what [json.loads] makes of it:
        either bytes the decoder rejects, or the decoded JSON value.
      - [RETRY_BASE_DELAY] is a Python float.  Durations are modelled as
        exact rationals, which is what [2.0 ** n] computes for the exponents
        of the documented schedule; float range errors are outside the model.
      - [handle_failure] mutates the envelope it is given; the model returns
        the mutated envelope instead. *)

From Stdlib Require Import ZArith QArith String List Lia.
From stdpp Require Import base option gmap strings pretty list.

Import ListNotations.
Local Open Scope string_scope.
Local Open Scope Z_scope.
Local Open Scope list_scope.

(** ** JSON values, as produced by [json.loads] *)

#[local] Set Warnings "-register-all".

Inductive json : Type :=
| JNull
| JBool (b : bool)
| JInt (z : Z)
| JFloat (q : Q)
| JStr (s : string)
| JArr (l : list json)
| JObj (o : gmap string json).

(** A delivered body: bytes that [json.loads] rejects, or the decoded value. *)
Inductive Body : Type :=
| Undecodable (raw : string)
| Decoded (j : json).

(** ** shared/schemas.py *)

Record TaskPayload : Type := mkTask {
  task_id     : string;
  task_type   : string;
  payload     : gmap string json;
  retry_count : Z;
  created_at  : string;
  max_retries : option Z
}.

Definition set_retry_count (t : TaskPayload) (n : Z) : TaskPayload :=
  {| task_id := task_id t; task_type := task_type t; payload := payload t;
     retry_count := n; created_at := created_at t;
     max_retries := max_retries t |}.

(** [task.model_dump_json()], seen through [json.loads]. *)
Definition model_dump (t : TaskPayload) : json :=
  JObj (<["task_id"     := JStr (task_id t)]>
       (<["task_type"   := JStr (task_type t)]>
       (<["payload"     := JObj (payload t)]>
       (<["retry_count" := JInt (retry_count t)]>
       (<["created_at"  := JStr (created_at t)]>
       (<["max_retries" := match max_retries t with
                           | Some m => JInt m
                           | None => JNull
                           end]> ∅)))))).

(** ** worker/app/config.py *)

Record WorkerSettings : Type := mkSettings {
  SERVICE_NAME      : string;
  LOG_LEVEL         : string;
  RABBITMQ_HOST     : string;
  RABBITMQ_PORT     : Z;
  RABBITMQ_USER     : string;
  RABBITMQ_PASSWORD : string;
  RABBITMQ_VHOST    : string;
  EXCHANGE_NAME     : string;
  EXCHANGE_TYPE     : string;
  ROUTING_KEY       : string;
  TASK_QUEUE        : string;
  DLQ_QUEUE         : string;
  DLQ_EXCHANGE      : string;
  REDIS_HOST        : string;
  REDIS_PORT        : Z;
  REDIS_DB          : Z;
  REDIS_TASK_TTL    : Z;
  MAX_RETRIES       : Z;
  RETRY_BASE_DELAY  : Q
}.

(** The class defaults of [WorkerSettings]. *)
Definition default_settings : WorkerSettings := {|
  SERVICE_NAME      := "worker";
  LOG_LEVEL         := "INFO";
  RABBITMQ_HOST     := "rabbitmq";
  RABBITMQ_PORT     := 5672;
  RABBITMQ_USER     := "guest";
  RABBITMQ_PASSWORD := "guest";
  RABBITMQ_VHOST    := "/";
  EXCHANGE_NAME     := "task_exchange";
  EXCHANGE_TYPE     := "direct";
  ROUTING_KEY       := "task.process";
  TASK_QUEUE        := "task_queue";
  DLQ_QUEUE         := "dead_letter_queue";
  DLQ_EXCHANGE      := "dlq_exchange";
  REDIS_HOST        := "redis";
  REDIS_PORT        := 6379;
  REDIS_DB          := 0;
  REDIS_TASK_TTL    := 86400;
  MAX_RETRIES       := 3;
  RETRY_BASE_DELAY  := 2
|}.

(** ** Exceptions, events and the world *)

Record Exn : Type := mkExn { exn_class : string; exn_msg : string }.

Inductive Level : Type := INFO | WARNING | ERROR.

(** [pika.BasicProperties] as the repository fills it. *)
Record BasicProperties : Type := mkProps {
  delivery_mode : Z;
  content_type  : string;
  message_id    : string
}.

Inductive Event : Type :=
| Log (lvl : Level) (msg : string) (status : string)
| RedisExists (key : string)
| RedisSetex (key : string) (ttl : Z) (value : string)
| Sleep (seconds : Q)
| Invoke (handler_name : string) (task : TaskPayload)
| Connect
| CloseConnection
| ExchangeDeclare (exchange : string) (exchange_type : string) (durable : bool)
| QueueDeclare (queue : string) (durable : bool)
    (x_dead_letter_exchange : option string)
| QueueBind (queue : string) (exchange : string) (routing_key : string)
| BasicPublish (exchange : string) (routing_key : string) (body : Body)
    (properties : BasicProperties)
| BasicAck (delivery_tag : Z)
| BasicNack (delivery_tag : Z) (requeue : bool).

Record World : Type := mkWorld {
  redis   : gmap string (string * Z);  (* key -> (value, ttl in seconds) *)
  clock   : Q;                         (* seconds *)
  entropy : nat;                       (* UUIDs drawn so far *)
  trace   : list Event                 (* oldest first *)
}.

(** ** The monad: state passing with Python exceptions *)

Inductive Result (A : Type) : Type :=
| Ok (a : A)
| Raise (e : Exn).
Arguments Ok {A} a.
Arguments Raise {A} e.

Definition M (A : Type) : Type := World -> Result A * World.

Definition ret {A} (a : A) : M A := fun w => (Ok a, w).

Definition bind {A B} (m : M A) (k : A -> M B) : M B :=
  fun w => match m w with
           | (Ok a, w') => k a w'
           | (Raise e, w') => (Raise e, w')
           end.

Definition raise {A} (e : Exn) : M A := fun w => (Raise e, w).

(** [try: body  except Exception as exc: handler exc] *)
Definition try_except {A} (body : M A) (handler : Exn -> M A) : M A :=
  fun w => match body w with
           | (Ok a, w') => (Ok a, w')
           | (Raise e, w') => handler e w'
           end.

(** [try: body  finally: cleanup], for a cleanup that does not raise. *)
Definition try_finally {A} (body : M A) (cleanup : M unit) : M A :=
  fun w => match body w with
           | (r, w') => (r, snd (cleanup w'))
           end.

Declare Scope py_scope.
Delimit Scope py_scope with py.
Notation "x <- c1 ;; c2" := (bind c1 (fun x => c2))
  (at level 100, c1 at next level, right associativity) : py_scope.
Notation "c1 ;;; c2" := (bind c1 (fun _ => c2))
  (at level 100, right associativity) : py_scope.
Local Open Scope py_scope.

Definition emit (e : Event) : M unit :=
  fun w => (Ok tt, {| redis := redis w; clock := clock w;
                      entropy := entropy w; trace := trace w ++ [e] |}).

Definition exec {A} (m : M A) (w : World) : World := snd (m w).
Definition outcome {A} (m : M A) (w : World) : Result A := fst (m w).

(** The events a computation adds to the trace of [w]. *)
Definition emitted {A} (m : M A) (w : World) : list Event :=
  drop (length (trace w)) (trace (exec m w)).

Definition log (lvl : Level) (msg status : string) : M unit :=
  emit (Log lvl msg status).

(** [time.sleep]: the wall clock moves on by the requested duration. *)
Definition sleep (seconds : Q) : M unit :=
  fun w => (Ok tt, {| redis := redis w; clock := (clock w + seconds)%Q;
                      entropy := entropy w;
                      trace := trace w ++ [Sleep seconds] |}).

(** [client.exists(key)] *)
Definition redis_exists (key : string) : M bool :=
  fun w => (Ok (bool_decide (is_Some (redis w !! key))),
            {| redis := redis w; clock := clock w; entropy := entropy w;
               trace := trace w ++ [RedisExists key] |}).

(** [client.setex(name, time, value)] *)
Definition redis_setex (name : string) (time : Z) (value : string) : M unit :=
  fun w => (Ok tt, {| redis := <[name := (value, time)]> (redis w);
                      clock := clock w; entropy := entropy w;
                      trace := trace w ++ [RedisSetex name time value] |}).

(** ** Handlers

    A handler receives the envelope, writes log records and either returns
    or raises: the interface [process(envelope) -> success | failure]. *)

Record HandlerRun : Type := mkRun {
  h_logs   : list (Level * string * string);
  h_raises : option Exn
}.

Definition Handler : Type := TaskPayload -> HandlerRun.

Fixpoint emit_logs (l : list (Level * string * string)) : M unit :=
  match l with
  | [] => ret tt
  | (lvl, msg, status) :: l' => log lvl msg status ;;; emit_logs l'
  end.

(** [handler(task)] for the handler registered under [name]. *)
Definition call_handler (name : string) (h : Handler) (task : TaskPayload)
  : M unit :=
  emit (Invoke name task) ;;;
  emit_logs (h_logs (h task)) ;;;
  match h_raises (h task) with
  | None => ret tt
  | Some e => raise e
  end.

(** ** The worker, for given settings, registry and external generators *)

Section Worker.

Variable settings : WorkerSettings.

(** The handler registry ([TASK_HANDLERS] in the repository). *)
Variable registry : gmap string Handler.

(** pydantic's (lax) validation of a JSON value for an [int] field. *)
Variable lax_int : json -> option Z.

(** [str(uuid.uuid4())], by the number of UUIDs drawn before it. *)
Variable uuid4 : nat -> string.

(** [datetime.utcnow().isoformat()] at a clock reading. *)
Variable isoformat : Q -> string.

(** *** shared/schemas.py: building a [TaskPayload] from keyword arguments *)

Definition str_field (v : json) : option string :=
  match v with JStr s => Some s | _ => None end.

Definition dict_field (v : json) : option (gmap string json) :=
  match v with JObj o => Some o | _ => None end.

Definition optional_int_field (v : json) : option (option Z) :=
  match v with
  | JNull => Some None
  | _ => match lax_int v with Some z => Some (Some z) | None => None end
  end.

Definition draw_uuid : M string :=
  fun w => (Ok (uuid4 (entropy w)),
            {| redis := redis w; clock := clock w; entropy := S (entropy w);
               trace := trace w |}).

Definition utcnow_isoformat : M string :=
  fun w => (Ok (isoformat (clock w)), w).

(** A field with a default: validated when the key is present, the default
    (factory) otherwise.  [None] records a validation error for the field. *)
Definition field_or_default {A} (o : gmap string json) (name : string)
    (validate : json -> option A) (default : M A) : M (option A) :=
  match o !! name with
  | Some v => ret (validate v)
  | None => a <- default ;; ret (Some a)
  end.

(** A field without default: a missing key is a validation error. *)
Definition required_field {A} (o : gmap string json) (name : string)
    (validate : json -> option A) : M (option A) :=
  match o !! name with
  | Some v => ret (validate v)
  | None => ret None
  end.

(** The constructor call of [process_message], which unpacks [raw] into
    keyword arguments.  Unpacking anything but a mapping is a TypeError;
    pydantic visits every field, then raises if some field was invalid. *)
Definition TaskPayload_init (raw : json) : M TaskPayload :=
  match raw with
  | JObj o =>
      tid <- field_or_default o "task_id" str_field draw_uuid ;;
      tty <- required_field o "task_type" str_field ;;
      pl  <- field_or_default o "payload" dict_field (ret ∅) ;;
      rc  <- field_or_default o "retry_count" lax_int (ret 0) ;;
      ca  <- field_or_default o "created_at" str_field utcnow_isoformat ;;
      mr  <- field_or_default o "max_retries" optional_int_field (ret None) ;;
      match tid, tty, pl, rc, ca, mr with
      | Some tid, Some tty, Some pl, Some rc, Some ca, Some mr =>
          ret (mkTask tid tty pl rc ca mr)
      | _, _, _, _, _, _ =>
          raise (mkExn "ValidationError" "validation error for TaskPayload")
      end
  | _ => raise (mkExn "TypeError" "argument after ** must be a mapping")
  end.

(** The two statements under [try] at the top of [process_message]:
    decode the body, then build the envelope. *)
Definition deserialize (body : Body) : M TaskPayload :=
  match body with
  | Undecodable _ => raise (mkExn "JSONDecodeError" "invalid JSON")
  | Decoded raw => TaskPayload_init raw
  end.

(** *** worker/app/idempotency.py *)

Definition _key (task_id : string) : string := "task:processed:" +:+ task_id.

Definition is_duplicate (task_id : string) : M bool :=
  exists_ <- redis_exists (_key task_id) ;;
  (if exists_ : bool
   then log INFO "Duplicate task detected — skipping" "duplicate_skipped"
   else ret tt) ;;;
  ret exists_.

Definition mark_processed (task_id : string) : M unit :=
  redis_setex (_key task_id) (REDIS_TASK_TTL settings) "processed" ;;;
  log INFO "Task marked as processed in Redis" "idempotency_stored".

(** *** worker/app/retry_handler.py *)

Definition _get_connection : M unit := emit Connect.

Definition json_properties (task : TaskPayload) : BasicProperties :=
  {| delivery_mode := 2; content_type := "application/json";
     message_id := task_id task |}.

(** Opening a channel on the fresh connection is not recorded. *)
Definition _republish_task (task : TaskPayload) : M unit :=
  _get_connection ;;;
  try_finally
    (emit (BasicPublish (EXCHANGE_NAME settings) (ROUTING_KEY settings)
             (Decoded (model_dump task)) (json_properties task)) ;;;
     log INFO "Task re-queued for retry" "re_queued")
    (emit CloseConnection).

Definition _publish_to_dlq (task : TaskPayload) : M unit :=
  _get_connection ;;;
  try_finally
    (emit (ExchangeDeclare (DLQ_EXCHANGE settings) "fanout" true) ;;;
     emit (QueueDeclare (DLQ_QUEUE settings) true None) ;;;
     emit (QueueBind (DLQ_QUEUE settings) (DLQ_EXCHANGE settings) "") ;;;
     emit (BasicPublish (DLQ_EXCHANGE settings) ""
             (Decoded (model_dump task)) (json_properties task)) ;;;
     log ERROR "Task published to Dead Letter Queue" "dlq_published")
    (emit CloseConnection).

(** The budget resolved on the first line of [handle_failure]. *)
Definition effective_budget (task : TaskPayload) : Z :=
  match max_retries task with
  | Some m => m
  | None => MAX_RETRIES settings
  end.

Definition handle_failure (task : TaskPayload) (error : Exn) : M TaskPayload :=
  let max_retries := effective_budget task in
  let task := set_retry_count task (retry_count task + 1) in
  if retry_count task <=? max_retries then
    let delay := (RETRY_BASE_DELAY settings ^ retry_count task)%Q in
    log WARNING "Task failed — scheduling retry" "retrying" ;;;
    sleep delay ;;;
    _republish_task task ;;;
    ret task
  else
    log ERROR "Task exceeded max retries — sending to Dead Letter Queue"
      "dead_lettered" ;;;
    _publish_to_dlq task ;;;
    ret task.

(** *** worker/app/consumer.py *)

Definition process_message (delivery_tag : Z) (body : Body) : M unit :=
  parsed <- try_except
              (task <- deserialize body ;; ret (Some task))
              (fun exc =>
                 log ERROR "Failed to deserialize message — sending to DLQ"
                   "deserialization_error" ;;;
                 emit (BasicNack delivery_tag false) ;;;
                 ret None) ;;
  match parsed with
  | None => ret tt
  | Some task =>
      log INFO "Task received" "received" ;;;
      dup <- is_duplicate (task_id task) ;;
      if dup : bool then
        emit (BasicAck delivery_tag)
      else
        match registry !! task_type task with
        | None =>
            log WARNING "Unknown task_type — discarding" "unknown_task_type" ;;;
            emit (BasicNack delivery_tag false)
        | Some handler =>
            try_except
              (call_handler (task_type task) handler task ;;;
               mark_processed (task_id task) ;;;
               emit (BasicAck delivery_tag) ;;;
               log INFO "Task completed successfully" "completed")
              (fun exc =>
                 emit (BasicAck delivery_tag) ;;;
                 _ <- handle_failure task exc ;;
                 ret tt)
        end
  end.

(** *** worker/app/worker.py *)

Definition _declare_infrastructure : M unit :=
  emit (ExchangeDeclare (DLQ_EXCHANGE settings) "fanout" true) ;;;
  emit (QueueDeclare (DLQ_QUEUE settings) true None) ;;;
  emit (QueueBind (DLQ_QUEUE settings) (DLQ_EXCHANGE settings) "") ;;;
  emit (ExchangeDeclare (EXCHANGE_NAME settings) (EXCHANGE_TYPE settings)
          true) ;;;
  emit (QueueDeclare (TASK_QUEUE settings) true
          (Some (DLQ_EXCHANGE settings))) ;;;
  emit (QueueBind (TASK_QUEUE settings) (EXCHANGE_NAME settings)
          (ROUTING_KEY settings)).

End Worker.

(** ** worker/app/consumer.py: the registered handlers *)

Definition _handle_send_email : Handler := fun task =>
  {| h_logs := [(INFO, "Processing send_email task", "processing");
                (INFO, "Email sent successfully", "success")];
     h_raises := None |}.

Definition _handle_resize_image : Handler := fun task =>
  {| h_logs := [(INFO, "Processing resize_image task", "processing");
                (INFO, "Image resized successfully", "success")];
     h_raises := None |}.

Definition _handle_process_payment : Handler := fun task =>
  {| h_logs := [(INFO, "Processing process_payment task", "processing");
                (INFO, "Payment processed successfully", "success")];
     h_raises := None |}.

Definition _handle_fail_task : Handler := fun task =>
  {| h_logs := [(WARNING, "Simulating task failure for retry/DLQ testing",
                 "simulated_failure")];
     h_raises := Some (mkExn "RuntimeError"
                         "Intentional failure — testing retry mechanism") |}.

Definition TASK_HANDLERS : gmap string Handler :=
  <["send_email"      := _handle_send_email]>
 (<["resize_image"    := _handle_resize_image]>
 (<["process_payment" := _handle_process_payment]>
 (<["fail_task"       := _handle_fail_task]> ∅))).

(** ** Concrete stand-ins for the external generators

    Used to run the worker on concrete inputs. *)

(** Accepts exactly the JSON integers. *)
Definition exact_int (v : json) : option Z :=
  match v with JInt z => Some z | _ => None end.

Definition counter_uuid (n : nat) : string := "uuid-" +:+ pretty n.

Definition fixed_isoformat (q : Q) : string := "2026-02-24T12:00:00".

Definition empty_world : World :=
  {| redis := ∅; clock := 0; entropy := 0; trace := [] |}.

(** The worker as deployed with the default settings. *)
Definition worker_process_message : Z -> Body -> M unit :=
  process_message default_settings TASK_HANDLERS exact_int counter_uuid
    fixed_isoformat.

(** Sample deliveries. *)

Definition email_task : TaskPayload :=
  mkTask "T1" "send_email" ∅ 0 "2026-02-24T12:00:00" None.

Definition failing_task : TaskPayload :=
  mkTask "T2" "fail_task" ∅ 0 "2026-02-24T12:00:00" None.

Definition unknown_task : TaskPayload :=
  mkTask "T1" "no_such_type" ∅ 0 "2026-02-24T12:00:00" None.

(** A world in which task [T1] was already processed. *)
Definition marked_world : World :=
  {| redis := {[ "task:processed:T1" := ("processed", 86400) ]};
     clock := 0; entropy := 0; trace := [] |}.

(** A decoded object that carries nothing but a task type. *)
Definition bare_object : gmap string json :=
  {[ "task_type" := JStr "send_email" ]}.

(** ** Reading traces *)

(** [w] with [evs] appended to its trace. *)
Definition record_events (w : World) (evs : list Event) : World :=
  {| redis := redis w; clock := clock w; entropy := entropy w;
     trace := trace w ++ evs |}.

Definition log_event (r : Level * string * string) : Event :=
  match r with (lvl, msg, status) => Log lvl msg status end.

(** Destination and body of every [basic_publish] in a trace, in order. *)
Fixpoint publishes (tr : list Event) : list (string * string * Body) :=
  match tr with
  | [] => []
  | BasicPublish ex rk body _ :: tr' => (ex, rk, body) :: publishes tr'
  | _ :: tr' => publishes tr'
  end.

Definition is_invoke (e : Event) : bool :=
  match e with Invoke _ _ => true | _ => false end.

Definition is_setex (e : Event) : bool :=
  match e with RedisSetex _ _ _ => true | _ => false end.

Definition is_nack (e : Event) : bool :=
  match e with BasicNack _ _ => true | _ => false end.

(** The waits and publishes of a trace: the retry schedule it shows. *)
Definition is_schedule_event (e : Event) : bool :=
  match e with Sleep _ | BasicPublish _ _ _ _ => true | _ => false end.

Definition schedule (tr : list Event) : list Event :=
  List.filter is_schedule_event tr.

(** ** The broker redelivering what the worker republishes

    The last body published to [(exchange, routing_key)] in a trace. *)
Fixpoint last_published (exchange routing_key : string) (tr : list Event)
  : option Body :=
  match tr with
  | [] => None
  | BasicPublish ex rk body _ :: tr' =>
      match last_published exchange routing_key tr' with
      | Some b => Some b
      | None =>
          if String.eqb ex exchange && String.eqb rk routing_key
          then Some body else None
      end
  | _ :: tr' => last_published exchange routing_key tr'
  end.

Section Redelivery.

Variable settings : WorkerSettings.
Variable registry : gmap string Handler.
Variable lax_int : json -> option Z.
Variable uuid4 : nat -> string.
Variable isoformat : Q -> string.

(** The worker consumes [body]; whatever it republishes to the main exchange
    is delivered to it again, up to [n] deliveries.  Returns the number of
    deliveries made and the final world. *)
Fixpoint deliver (n : nat) (delivery_tag : Z) (body : Body) (w : World)
  : nat * World :=
  match n with
  | O => (O, w)
  | S n' =>
      let w' := exec (process_message settings registry lax_int uuid4
                        isoformat delivery_tag body) w in
      match last_published (EXCHANGE_NAME settings) (ROUTING_KEY settings)
              (drop (length (trace w)) (trace w')) with
      | Some body' =>
          let (k, w'') := deliver n' (delivery_tag + 1) body' w' in
          (S k, w'')
      | None => (1%nat, w')
      end
  end.

End Redelivery.

(** ** Closed form of the envelope constructor *)

(** What a field of the envelope becomes: the validated value of the key,
    or the default when the key is absent. *)
Definition field_value {A} (o : gmap string json) (name : string)
    (validate : json -> option A) (default : A) : option A :=
  match o !! name with
  | Some v => validate v
  | None => Some default
  end.

(** The world after the constructor ran: a UUID was drawn iff the key
    [task_id] is absent. *)
Definition after_init (o : gmap string json) (w : World) : World :=
  match o !! "task_id" with
  | Some _ => w
  | None => {| redis := redis w; clock := clock w; entropy := S (entropy w);
               trace := trace w |}
  end.

(** A key of the decoded object is absent, or holds a value its field accepts. *)
Definition absent_or_valid {A} (o : gmap string json) (name : string)
    (validate : json -> option A) : Prop :=
  match o !! name with
  | Some v => is_Some (validate v)
  | None => True
  end.

(** The dedup store is left as it was and no [setex] was issued. *)
Definition dedup_untouched {A} (m : M A) (w : World) : Prop :=
  existsb is_setex (emitted m w) = false /\ redis (exec m w) = redis w.

(** What one delivery of a failing envelope adds before [handle_failure]. *)
Definition attempt_events (tag : Z) (task : TaskPayload) (h : Handler)
  : list Event :=
  [Log INFO "Task received" "received";
   RedisExists (_key (task_id task));
   Invoke (task_type task) task] ++
  map log_event (h_logs (h task)) ++ [BasicAck tag].

(** * The rest of the worker and the producer *)

(** ** More of Python's exception handling *)

(** [try: body  except C1 as exc: h1 exc  except C2 as exc: h2 exc]: the
    first clause whose class the exception is an instance of runs; what a
    clause raises is not offered to the other clause. *)
Definition try_except2 {A} (body : M A)
    (c1 : Exn -> bool) (h1 : Exn -> M A)
    (c2 : Exn -> bool) (h2 : Exn -> M A) : M A :=
  fun w => match body w with
           | (Ok a, w') => (Ok a, w')
           | (Raise e, w') =>
               if c1 e then h1 e w'
               else if c2 e then h2 e w'
               else (Raise e, w')
           end.

(** [try: body  except C as exc: h exc] *)
Definition try_except_when {A} (c : Exn -> bool) (body : M A)
    (h : Exn -> M A) : M A :=
  fun w => match body w with
           | (Ok a, w') => (Ok a, w')
           | (Raise e, w') => if c e then h e w' else (Raise e, w')
           end.

(** The exceptions of pika, each represented by the nearest of
    [AMQPError] and its two direct subclasses. *)
Definition AMQPConnectionError (msg : string) : Exn :=
  mkExn "AMQPConnectionError" msg.

Definition KeyboardInterrupt : Exn := mkExn "KeyboardInterrupt" "".

Definition is_AMQPConnectionError (e : Exn) : bool :=
  String.eqb (exn_class e) "AMQPConnectionError".

Definition is_AMQPError (e : Exn) : bool :=
  String.eqb (exn_class e) "AMQPError"
  || String.eqb (exn_class e) "AMQPConnectionError"
  || String.eqb (exn_class e) "AMQPChannelError".

Definition is_KeyboardInterrupt (e : Exn) : bool :=
  String.eqb (exn_class e) "KeyboardInterrupt".

(** [except Exception] lets pass what derives from [BaseException] only.
    What a handler raises stands for an [Exception], as before;
    [KeyboardInterrupt] comes from [start_consuming] and from the faults of
    the producer. *)
Definition is_Exception (e : Exn) : bool :=
  negb (String.eqb (exn_class e) "KeyboardInterrupt"
        || String.eqb (exn_class e) "SystemExit"
        || String.eqb (exn_class e) "GeneratorExit").

(** ** worker/app/worker.py: the entrypoint *)

Definition STARTUP_RETRY_ATTEMPTS : nat := 10.
Definition STARTUP_RETRY_DELAY : Q := 5.

(** What [basic_qos] and [basic_consume] set on a channel. *)
Record Channel : Type := mkChannel {
  prefetch_count : option Z;
  consumer       : option (string * bool)   (* queue, auto_ack *)
}.

Definition new_channel : Channel := mkChannel None None.

Definition basic_qos (ch : Channel) (n : Z) : Channel :=
  mkChannel (Some n) (consumer ch).

Definition basic_consume (ch : Channel) (queue : string) (auto_ack : bool)
  : Channel :=
  mkChannel (prefetch_count ch) (Some (queue, auto_ack)).

(** How [start_consuming] ends. *)
Inductive ConsumeEnd : Type :=
| ConsumeReturns
| ConnectionLost
| Interrupted.

(** An accepted connection: the messages waiting in each queue, which the
    broker delivers to a consumer of that queue, and how consumption ends. *)
Record Connection : Type := mkConnection {
  incoming : string -> list (Z * Body);
  ending   : ConsumeEnd
}.

(** What the broker does at one connection attempt. *)
Inductive Attempt : Type :=
| Refused
| Accepted (connection : Connection).

(** [break] or the next iteration of the [for] loop. *)
Inductive Flow : Type := NextAttempt | Break.

Section Entrypoint.

Variable settings : WorkerSettings.
Variable registry : gmap string Handler.
Variable lax_int : json -> option Z.
Variable uuid4 : nat -> string.
Variable isoformat : Q -> string.

(** pika calling [process_message] for each delivery, one at a time. *)
Fixpoint consume (deliveries : list (Z * Body)) : M unit :=
  match deliveries with
  | [] => ret tt
  | (delivery_tag, body) :: rest =>
      process_message settings registry lax_int uuid4 isoformat
        delivery_tag body ;;;
      consume rest
  end.

(** [channel.start_consuming()]: without a consumer it returns at once. *)
Definition start_consuming (connection : Connection) (ch : Channel) : M unit :=
  match consumer ch with
  | None => ret tt
  | Some (queue, _) =>
      consume (incoming connection queue) ;;;
      match ending connection with
      | ConsumeReturns => ret tt
      | ConnectionLost => raise (AMQPConnectionError "connection lost")
      | Interrupted => raise KeyboardInterrupt
      end
  end.

(** [_get_connection()] of worker.py at one attempt. *)
Definition worker_get_connection (a : Attempt) : M Connection :=
  match a with
  | Refused => raise (AMQPConnectionError "connection refused")
  | Accepted connection => emit Connect ;;; ret connection
  end.

(** The body of the [for] loop of [start_worker]. *)
Definition start_worker_attempt (attempt : nat) (a : Attempt) : M Flow :=
  try_except2
    (log INFO "Connecting to RabbitMQ" "connecting" ;;;
     connection <- worker_get_connection a ;;
     let channel := new_channel in
     let channel := basic_qos channel 1 in
     _declare_infrastructure settings ;;;
     let channel := basic_consume channel (TASK_QUEUE settings) false in
     log INFO "Worker ready — waiting for tasks" "ready" ;;;
     start_consuming connection channel ;;;
     ret NextAttempt)
    is_AMQPConnectionError
    (fun exc =>
       log WARNING "RabbitMQ not available yet — retrying" "" ;;;
       if Nat.eqb attempt STARTUP_RETRY_ATTEMPTS then
         log ERROR "Exhausted RabbitMQ connection attempts — exiting"
           "fatal" ;;;
         raise exc
       else
         sleep STARTUP_RETRY_DELAY ;;;
         ret NextAttempt)
    is_KeyboardInterrupt
    (fun _ =>
       log INFO "Worker stopped by user" "stopped" ;;;
       ret Break).

(** [for attempt in range(first, first + count)] *)
Fixpoint start_worker_loop (script : nat -> Attempt) (attempt count : nat)
  : M unit :=
  match count with
  | O => ret tt
  | S count' =>
      flow <- start_worker_attempt attempt (script attempt) ;;
      match flow with
      | NextAttempt => start_worker_loop script (S attempt) count'
      | Break => ret tt
      end
  end.

Definition start_worker (script : nat -> Attempt) : M unit :=
  start_worker_loop script 1 STARTUP_RETRY_ATTEMPTS.

End Entrypoint.

(** ** The producer service *)

Module Producer.

(** *** producer/app/config.py *)

Record ProducerSettings : Type := mkSettings {
  SERVICE_NAME      : string;
  LOG_LEVEL         : string;
  RABBITMQ_HOST     : string;
  RABBITMQ_PORT     : Z;
  RABBITMQ_USER     : string;
  RABBITMQ_PASSWORD : string;
  RABBITMQ_VHOST    : string;
  EXCHANGE_NAME     : string;
  EXCHANGE_TYPE     : string;
  ROUTING_KEY       : string;
  TASK_QUEUE        : string;
  DLQ_QUEUE         : string;
  DLQ_EXCHANGE      : string
}.

Definition default_settings : ProducerSettings := {|
  SERVICE_NAME      := "producer";
  LOG_LEVEL         := "INFO";
  RABBITMQ_HOST     := "rabbitmq";
  RABBITMQ_PORT     := 5672;
  RABBITMQ_USER     := "guest";
  RABBITMQ_PASSWORD := "guest";
  RABBITMQ_VHOST    := "/";
  EXCHANGE_NAME     := "task_exchange";
  EXCHANGE_TYPE     := "direct";
  ROUTING_KEY       := "task.process";
  TASK_QUEUE        := "task_queue";
  DLQ_QUEUE         := "dead_letter_queue";
  DLQ_EXCHANGE      := "dlq_exchange"
|}.

(** What goes wrong while publishing: nothing, the broker refuses the
    connection, or [basic_publish] raises. *)
Inductive Fault : Type :=
| NoFault
| ConnectionRefused
| PublishRaises (e : Exn).

(** *** shared/schemas.py: the API response *)

Record TaskResponse : Type := mkResponse {
  response_task_id    : string;
  response_status     : string;
  response_message    : string;
  response_created_at : string
}.

(** What the client gets: the response of the route, or the status and
    detail of the [HTTPException] it raised. *)
Inductive HttpResult : Type :=
| Responded (r : TaskResponse)
| HttpError (status_code : Z) (detail : string).

Definition HTTP_503_SERVICE_UNAVAILABLE : Z := 503.

Definition set_task_type (t : TaskPayload) (ty : string) : TaskPayload :=
  {| task_id := task_id t; task_type := ty; payload := payload t;
     retry_count := retry_count t; created_at := created_at t;
     max_retries := max_retries t |}.

Section Service.

Variable settings : ProducerSettings.

(** *** producer/app/publisher.py *)

Definition _get_connection (fault : Fault) : M unit :=
  match fault with
  | ConnectionRefused => raise (AMQPConnectionError "connection refused")
  | _ => emit Connect
  end.

Definition _declare_infrastructure : M unit :=
  emit (ExchangeDeclare (DLQ_EXCHANGE settings) "fanout" true) ;;;
  emit (QueueDeclare (DLQ_QUEUE settings) true None) ;;;
  emit (QueueBind (DLQ_QUEUE settings) (DLQ_EXCHANGE settings) "") ;;;
  emit (ExchangeDeclare (EXCHANGE_NAME settings) (EXCHANGE_TYPE settings)
          true) ;;;
  emit (QueueDeclare (TASK_QUEUE settings) true
          (Some (DLQ_EXCHANGE settings))) ;;;
  emit (QueueBind (TASK_QUEUE settings) (EXCHANGE_NAME settings)
          (ROUTING_KEY settings)).

Definition basic_publish (fault : Fault) (exchange routing_key : string)
    (body : Body) (properties : BasicProperties) : M unit :=
  match fault with
  | PublishRaises e => raise e
  | _ => emit (BasicPublish exchange routing_key body properties)
  end.

Definition publish_task (fault : Fault) (task : TaskPayload) : M unit :=
  _get_connection fault ;;;
  try_finally
    (try_except_when is_AMQPError
       (_declare_infrastructure ;;;
        let body := Decoded (model_dump task) in
        basic_publish fault (EXCHANGE_NAME settings) (ROUTING_KEY settings)
          body
          {| delivery_mode := 2; content_type := "application/json";
             message_id := task_id task |} ;;;
        log INFO "Task published to RabbitMQ" "queued")
       (fun exc =>
          log ERROR "Failed to publish task" "" ;;;
          raise exc))
    (emit CloseConnection).

(** *** producer/app/routes.py *)

Definition submit_task (fault : Fault) (task : TaskPayload) : M HttpResult :=
  failed <- try_except_when is_Exception
              (publish_task fault task ;;; ret None)
              (fun exc =>
                 log ERROR "Error publishing task via API" "" ;;;
                 ret (Some (HttpError HTTP_503_SERVICE_UNAVAILABLE
                              ("Failed to publish task: " +:+ exn_msg exc)))) ;;
  match failed with
  | Some error => ret error
  | None =>
      ret (Responded
             {| response_task_id := task_id task;
                response_status := "queued";
                response_message :=
                  "Task successfully published to the queue.";
                response_created_at := created_at task |})
  end.

Definition submit_failing_task (fault : Fault) (task : TaskPayload)
  : M HttpResult :=
  let task := set_task_type task "fail_task" in
  failed <- try_except_when is_Exception
              (publish_task fault task ;;; ret None)
              (fun exc =>
                 log ERROR "Error publishing failing task via API" "" ;;;
                 ret (Some (HttpError HTTP_503_SERVICE_UNAVAILABLE
                              ("Failed to publish task: " +:+ exn_msg exc)))) ;;
  match failed with
  | Some error => ret error
  | None =>
      ret (Responded
             {| response_task_id := task_id task;
                response_status := "queued";
                response_message :=
                  "Failure-simulation task queued. Watch worker logs for retries and DLQ.";
                response_created_at := created_at task |})
  end.

End Service.

End Producer.

(** ** Reading traces, continued *)

(** The acks and nacks of a trace. *)
Definition is_settlement (e : Event) : bool :=
  match e with BasicAck _ | BasicNack _ _ => true | _ => false end.

Definition settled_tag (e : Event) : option Z :=
  match e with
  | BasicAck tag | BasicNack tag _ => Some tag
  | _ => None
  end.

(** The delivery tags a trace acks or nacks, in order. *)
Definition settled_tags (tr : list Event) : list Z :=
  omap settled_tag tr.

Definition is_sleep (e : Event) : bool :=
  match e with Sleep _ => true | _ => false end.

Definition is_connect (e : Event) : bool :=
  match e with Connect => true | _ => false end.

Definition is_close (e : Event) : bool :=
  match e with CloseConnection => true | _ => false end.

(** ** The paths of the consumer callback *)

Section Paths.

Variable settings : WorkerSettings.
Variable registry : gmap string Handler.
Variable lax_int : json -> option Z.
Variable uuid4 : nat -> string.
Variable isoformat : Q -> string.

(** The events [handle_failure] adds, by branch. *)
Definition retry_events (task : TaskPayload) : list Event :=
  [Log WARNING "Task failed — scheduling retry" "retrying";
   Sleep (RETRY_BASE_DELAY settings ^ (retry_count task + 1));
   Connect;
   BasicPublish (EXCHANGE_NAME settings) (ROUTING_KEY settings)
     (Decoded (model_dump (set_retry_count task (retry_count task + 1))))
     (json_properties task);
   Log INFO "Task re-queued for retry" "re_queued";
   CloseConnection].

Definition dead_letter_events (task : TaskPayload) : list Event :=
  [Log ERROR "Task exceeded max retries — sending to Dead Letter Queue"
     "dead_lettered";
   Connect;
   ExchangeDeclare (DLQ_EXCHANGE settings) "fanout" true;
   QueueDeclare (DLQ_QUEUE settings) true None;
   QueueBind (DLQ_QUEUE settings) (DLQ_EXCHANGE settings) "";
   BasicPublish (DLQ_EXCHANGE settings) ""
     (Decoded (model_dump (set_retry_count task (retry_count task + 1))))
     (json_properties task);
   Log ERROR "Task published to Dead Letter Queue" "dlq_published";
   CloseConnection].

Definition failure_events (task : TaskPayload) : list Event :=
  if retry_count task + 1 <=? effective_budget settings task
  then retry_events task else dead_letter_events task.

(** The five ways a delivery can go, with the events each adds. *)
Inductive Path : Type :=
| Undecoded
| Duplicate (task : TaskPayload)
| UnknownType (task : TaskPayload)
| Succeeded (task : TaskPayload) (h : Handler)
| Failed (task : TaskPayload) (h : Handler) (e : Exn).

Definition path_events (tag : Z) (p : Path) : list Event :=
  match p with
  | Undecoded =>
      [Log ERROR "Failed to deserialize message — sending to DLQ"
         "deserialization_error";
       BasicNack tag false]
  | Duplicate task =>
      [Log INFO "Task received" "received";
       RedisExists (_key (task_id task));
       Log INFO "Duplicate task detected — skipping" "duplicate_skipped";
       BasicAck tag]
  | UnknownType task =>
      [Log INFO "Task received" "received";
       RedisExists (_key (task_id task));
       Log WARNING "Unknown task_type — discarding" "unknown_task_type";
       BasicNack tag false]
  | Succeeded task h =>
      [Log INFO "Task received" "received";
       RedisExists (_key (task_id task));
       Invoke (task_type task) task] ++
      map log_event (h_logs (h task)) ++
      [RedisSetex (_key (task_id task)) (REDIS_TASK_TTL settings) "processed";
       Log INFO "Task marked as processed in Redis" "idempotency_stored";
       BasicAck tag;
       Log INFO "Task completed successfully" "completed"]
  | Failed task h e =>
      [Log INFO "Task received" "received";
       RedisExists (_key (task_id task));
       Invoke (task_type task) task] ++
      map log_event (h_logs (h task)) ++ [BasicAck tag] ++
      failure_events task
  end.

(** When the callback takes a path. *)
Definition takes (body : Body) (w : World) (p : Path) : Prop :=
  match p with
  | Undecoded => exists e, outcome (deserialize lax_int uuid4 isoformat body) w = Raise e
  | Duplicate task =>
      outcome (deserialize lax_int uuid4 isoformat body) w = Ok task /\
      is_Some (redis w !! _key (task_id task))
  | UnknownType task =>
      outcome (deserialize lax_int uuid4 isoformat body) w = Ok task /\
      redis w !! _key (task_id task) = None /\
      registry !! task_type task = None
  | Succeeded task h =>
      outcome (deserialize lax_int uuid4 isoformat body) w = Ok task /\
      redis w !! _key (task_id task) = None /\
      registry !! task_type task = Some h /\
      h_raises (h task) = None
  | Failed task h e =>
      outcome (deserialize lax_int uuid4 isoformat body) w = Ok task /\
      redis w !! _key (task_id task) = None /\
      registry !! task_type task = Some h /\
      h_raises (h task) = Some e
  end.

(** An object that the envelope constructor accepts: [task_type] holds a
    string and every other field's key is absent or holds a valid value. *)
Definition well_formed (o : gmap string json) : Prop :=
  (exists ty, o !! "task_type" = Some (JStr ty)) /\
  absent_or_valid o "task_id" str_field /\
  absent_or_valid o "payload" dict_field /\
  absent_or_valid o "retry_count" lax_int /\
  absent_or_valid o "created_at" str_field /\
  absent_or_valid o "max_retries" (optional_int_field lax_int).

(** What an always-failing task with [k] retries left gets published:
    [k] republishes with growing [retry_count], then one dead letter. *)
Definition retry_publishes (task : TaskPayload) (k : nat)
  : list (string * string * Body) :=
  map (fun i : nat =>
         (EXCHANGE_NAME settings, ROUTING_KEY settings,
          Decoded (model_dump
                     (set_retry_count task (retry_count task + Z.of_nat i)))))
      (seq 1 k) ++
  [(DLQ_EXCHANGE settings, "",
    Decoded (model_dump
               (set_retry_count task (retry_count task + Z.of_nat k + 1))))].

End Paths.

(** The same envelope delivered under each of [tags]. *)
Definition redeliveries (task : TaskPayload) (tags : list Z)
  : list (Z * Body) :=
  map (fun tag => (tag, Decoded (model_dump task))) tags.

(** ** The events of the entrypoint *)

Section EntrypointEvents.

Variable settings : WorkerSettings.

(** The events of [_declare_infrastructure]. *)
Definition topology_events : list Event :=
  [ExchangeDeclare (DLQ_EXCHANGE settings) "fanout" true;
   QueueDeclare (DLQ_QUEUE settings) true None;
   QueueBind (DLQ_QUEUE settings) (DLQ_EXCHANGE settings) "";
   ExchangeDeclare (EXCHANGE_NAME settings) (EXCHANGE_TYPE settings) true;
   QueueDeclare (TASK_QUEUE settings) true (Some (DLQ_EXCHANGE settings));
   QueueBind (TASK_QUEUE settings) (EXCHANGE_NAME settings)
     (ROUTING_KEY settings)].

(** The events of an attempt up to the start of consumption. *)
Definition ready_events : list Event :=
  [Log INFO "Connecting to RabbitMQ" "connecting"; Connect] ++
  topology_events ++
  [Log INFO "Worker ready — waiting for tasks" "ready"].

(** One refused attempt that is not the last: the wait follows. *)
Definition refusal_events : list Event :=
  [Log INFO "Connecting to RabbitMQ" "connecting";
   Log WARNING "RabbitMQ not available yet — retrying" "";
   Sleep STARTUP_RETRY_DELAY].

End EntrypointEvents.

(** ** The events of the producer *)

Section ProducerEvents.

Variable settings : Producer.ProducerSettings.

(** The events of the producer's [_declare_infrastructure]. *)
Definition producer_topology_events : list Event :=
  [ExchangeDeclare (Producer.DLQ_EXCHANGE settings) "fanout" true;
   QueueDeclare (Producer.DLQ_QUEUE settings) true None;
   QueueBind (Producer.DLQ_QUEUE settings) (Producer.DLQ_EXCHANGE settings) "";
   ExchangeDeclare (Producer.EXCHANGE_NAME settings)
     (Producer.EXCHANGE_TYPE settings) true;
   QueueDeclare (Producer.TASK_QUEUE settings) true
     (Some (Producer.DLQ_EXCHANGE settings));
   QueueBind (Producer.TASK_QUEUE settings) (Producer.EXCHANGE_NAME settings)
     (Producer.ROUTING_KEY settings)].

(** The events of [publish_task], by fault. *)
Definition publish_events (fault : Producer.Fault) (task : TaskPayload)
  : list Event :=
  match fault with
  | Producer.NoFault =>
      [Connect] ++ producer_topology_events ++
      [BasicPublish (Producer.EXCHANGE_NAME settings)
         (Producer.ROUTING_KEY settings) (Decoded (model_dump task))
         (json_properties task);
       Log INFO "Task published to RabbitMQ" "queued";
       CloseConnection]
  | Producer.ConnectionRefused => []
  | Producer.PublishRaises e =>
      [Connect] ++ producer_topology_events ++
      (if is_AMQPError e then [Log ERROR "Failed to publish task" ""] else [])
      ++ [CloseConnection]
  end.

Definition publish_outcome (fault : Producer.Fault) : Result unit :=
  match fault with
  | Producer.NoFault => Ok tt
  | Producer.ConnectionRefused =>
      Raise (AMQPConnectionError "connection refused")
  | Producer.PublishRaises e => Raise e
  end.

(** The exception [publish_task] raises under a fault. *)
Definition fault_error (fault : Producer.Fault) : Exn :=
  match fault with
  | Producer.PublishRaises e => e
  | _ => AMQPConnectionError "connection refused"
  end.

End ProducerEvents.

(** The producer and the worker are configured with the same names. *)
Definition same_names (ps : Producer.ProducerSettings) (ws : WorkerSettings)
  : Prop :=
  Producer.EXCHANGE_NAME ps = EXCHANGE_NAME ws /\
  Producer.EXCHANGE_TYPE ps = EXCHANGE_TYPE ws /\
  Producer.ROUTING_KEY ps = ROUTING_KEY ws /\
  Producer.TASK_QUEUE ps = TASK_QUEUE ws /\
  Producer.DLQ_QUEUE ps = DLQ_QUEUE ws /\
  Producer.DLQ_EXCHANGE ps = DLQ_EXCHANGE ws.

(** ** Sample brokers *)

Definition always_refusing : nat -> Attempt := fun _ => Refused.

(** Two messages wait in the task queue; consumption is then interrupted. *)
Definition sample_connection : Connection :=
  {| incoming := fun queue =>
       if String.eqb queue "task_queue"
       then [(1, Decoded (model_dump email_task));
             (2, Undecodable "{not json")]
       else [];
     ending := Interrupted |}.

Definition refusing_twice : nat -> Attempt :=
  fun attempt => if (attempt <=? 2)%nat then Refused
                 else Accepted sample_connection.

Definition lossy_connection : Connection :=
  {| incoming := fun _ => []; ending := ConnectionLost |}.

Definition always_losing : nat -> Attempt :=
  fun _ => Accepted lossy_connection.

(** * Facts *)

(** ** Traces and worlds *)

Lemma record_events_nil w : record_events w [] = w.
Proof. destruct w. unfold record_events. simpl. by rewrite app_nil_r. Qed.

Lemma record_events_app w l1 l2 :
  record_events (record_events w l1) l2 = record_events w (l1 ++ l2).
Proof. unfold record_events. simpl. by rewrite app_assoc. Qed.

Lemma emit_run e w : emit e w = (Ok tt, record_events w [e]).
Proof. reflexivity. Qed.

Lemma emit_logs_run l w :
  emit_logs l w = (Ok tt, record_events w (map log_event l)).
Proof.
  revert w. induction l as [|[[lvl msg] status] l IH]; intros w.
  - simpl. by rewrite record_events_nil.
  - simpl. unfold bind, log. rewrite emit_run, IH, record_events_app.
    reflexivity.
Qed.

Lemma emitted_record {A} (m : M A) w evs :
  exec m w = record_events w evs -> emitted m w = evs.
Proof.
  intros H. unfold emitted. rewrite H. simpl. apply drop_app_length.
Qed.

Lemma emitted_trace {A} (m : M A) w evs :
  trace (exec m w) = trace w ++ evs -> emitted m w = evs.
Proof. intros H. unfold emitted. rewrite H. apply drop_app_length. Qed.

Section WorkerFacts.

Variable settings : WorkerSettings.
Variable registry : gmap string Handler.
Variable lax_int : json -> option Z.
Variable uuid4 : nat -> string.
Variable isoformat : Q -> string.

#[local] Abbreviation deserialize := (deserialize lax_int uuid4 isoformat).
#[local] Abbreviation handle_failure := (handle_failure settings).
#[local] Abbreviation process_message :=
  (process_message settings registry lax_int uuid4 isoformat).

(** *** The retry scheduler *)

Lemma handle_failure_retry task error w :
  retry_count task + 1 <= effective_budget settings task ->
  handle_failure task error w =
    (Ok (set_retry_count task (retry_count task + 1)),
     {| redis := redis w;
        clock := (clock w
                  + RETRY_BASE_DELAY settings ^ (retry_count task + 1))%Q;
        entropy := entropy w;
        trace := trace w ++
          [Log WARNING "Task failed — scheduling retry" "retrying";
           Sleep (RETRY_BASE_DELAY settings ^ (retry_count task + 1));
           Connect;
           BasicPublish (EXCHANGE_NAME settings) (ROUTING_KEY settings)
             (Decoded (model_dump
                         (set_retry_count task (retry_count task + 1))))
             (json_properties task);
           Log INFO "Task re-queued for retry" "re_queued";
           CloseConnection] |}).
Proof.
  intros H. apply Z.leb_le in H. unfold handle_failure. simpl. rewrite H.
  unfold bind, log, emit, sleep, _republish_task, _get_connection,
    try_finally, ret. simpl.
  rewrite <- !app_assoc. reflexivity.
Qed.

Lemma handle_failure_dead_letter task error w :
  effective_budget settings task < retry_count task + 1 ->
  handle_failure task error w =
    (Ok (set_retry_count task (retry_count task + 1)),
     record_events w
       [Log ERROR "Task exceeded max retries — sending to Dead Letter Queue"
          "dead_lettered";
        Connect;
        ExchangeDeclare (DLQ_EXCHANGE settings) "fanout" true;
        QueueDeclare (DLQ_QUEUE settings) true None;
        QueueBind (DLQ_QUEUE settings) (DLQ_EXCHANGE settings) "";
        BasicPublish (DLQ_EXCHANGE settings) ""
          (Decoded (model_dump (set_retry_count task (retry_count task + 1))))
          (json_properties task);
        Log ERROR "Task published to Dead Letter Queue" "dlq_published";
        CloseConnection]).
Proof.
  intros H. apply Z.leb_gt in H. unfold handle_failure. simpl. rewrite H.
  unfold bind, log, emit, _publish_to_dlq, _get_connection,
    try_finally, ret, record_events. simpl.
  rewrite <- !app_assoc. reflexivity.
Qed.

(** *** Building the envelope *)

Lemma TaskPayload_init_run o w :
  TaskPayload_init lax_int uuid4 isoformat (JObj o) w =
    (match field_value o "task_id" str_field (uuid4 (entropy w)),
           match o !! "task_type" with Some v => str_field v | None => None end,
           field_value o "payload" dict_field ∅,
           field_value o "retry_count" lax_int 0,
           field_value o "created_at" str_field (isoformat (clock w)),
           field_value o "max_retries" (optional_int_field lax_int) None with
     | Some tid, Some tty, Some pl, Some rc, Some ca, Some mr =>
         Ok (mkTask tid tty pl rc ca mr)
     | _, _, _, _, _, _ =>
         Raise (mkExn "ValidationError" "validation error for TaskPayload")
     end, after_init o w).
Proof.
  unfold TaskPayload_init, after_init, field_value, field_or_default,
    required_field, bind, ret, raise, draw_uuid, utcnow_isoformat.
  destruct (o !! "task_id") as [v1|]; [destruct (str_field v1)|];
  (destruct (o !! "task_type") as [v2|]; [destruct (str_field v2)|]);
  (destruct (o !! "payload") as [v3|]; [destruct (dict_field v3)|]);
  (destruct (o !! "retry_count") as [v4|]; [destruct (lax_int v4)|]);
  (destruct (o !! "created_at") as [v5|]; [destruct (str_field v5)|]);
  (destruct (o !! "max_retries") as [v6|];
     [destruct (optional_int_field lax_int v6)|]);
  reflexivity.
Qed.

Lemma after_init_frame o w :
  trace (after_init o w) = trace w /\ redis (after_init o w) = redis w /\
  clock (after_init o w) = clock w /\
  (entropy w <= entropy (after_init o w))%nat.
Proof.
  unfold after_init. destruct (o !! "task_id"); simpl; repeat split; lia.
Qed.

(** Decoding changes neither the trace, nor Redis, nor the clock. *)
Lemma deserialize_frame body w :
  trace (exec (deserialize body) w) = trace w /\
  redis (exec (deserialize body) w) = redis w /\
  clock (exec (deserialize body) w) = clock w /\
  (entropy w <= entropy (exec (deserialize body) w))%nat.
Proof.
  unfold exec. destruct body as [raw|j]; simpl; [repeat split; lia|].
  destruct j; try (simpl; repeat split; lia).
  rewrite TaskPayload_init_run. simpl. apply after_init_frame.
Qed.

(** *** The consumer callback, case by case *)

Lemma handle_failure_returns task error w :
  exists task', outcome (handle_failure task error) w = Ok task'.
Proof.
  unfold outcome.
  destruct (Z_le_gt_dec (retry_count task + 1) (effective_budget settings task)).
  - rewrite handle_failure_retry by assumption. eauto.
  - rewrite handle_failure_dead_letter by lia. eauto.
Qed.

Ltac open_callback H E :=
  unfold process_message, bind, try_except, outcome, exec in *;
  match goal with
  | |- context [deserialize ?b ?w] =>
      let F := fresh "Hframe" in
      pose proof (deserialize_frame b w) as F;
      unfold exec in F;
      destruct (deserialize b w) as [[?t|?e] ?w1] eqn:E;
      simpl in H, F; simpl
  end.

Lemma callback_undecodable tag body w e :
  outcome (deserialize body) w = Raise e ->
  process_message tag body w =
    (Ok tt,
     record_events (exec (deserialize body) w)
       [Log ERROR "Failed to deserialize message — sending to DLQ"
          "deserialization_error";
        BasicNack tag false]).
Proof.
  intros H. open_callback H E; [discriminate|].
  unfold log, emit, ret, record_events. simpl.
  rewrite <- !app_assoc. reflexivity.
Qed.

Lemma callback_duplicate tag body w task :
  outcome (deserialize body) w = Ok task ->
  is_Some (redis w !! _key (task_id task)) ->
  process_message tag body w =
    (Ok tt,
     record_events (exec (deserialize body) w)
       [Log INFO "Task received" "received";
        RedisExists (_key (task_id task));
        Log INFO "Duplicate task detected — skipping" "duplicate_skipped";
        BasicAck tag]).
Proof.
  intros H Hdup. open_callback H E; [|discriminate].
  injection H as ->. destruct Hframe as (_ & Hredis & _).
  unfold is_duplicate, redis_exists, bind, log, emit, ret, record_events.
  simpl. rewrite Hredis, bool_decide_eq_true_2 by assumption. simpl.
  rewrite <- !app_assoc. reflexivity.
Qed.

Lemma callback_unknown_type tag body w task :
  outcome (deserialize body) w = Ok task ->
  redis w !! _key (task_id task) = None ->
  registry !! task_type task = None ->
  process_message tag body w =
    (Ok tt,
     record_events (exec (deserialize body) w)
       [Log INFO "Task received" "received";
        RedisExists (_key (task_id task));
        Log WARNING "Unknown task_type — discarding" "unknown_task_type";
        BasicNack tag false]).
Proof.
  intros H Hnew Hreg. open_callback H E; [|discriminate].
  injection H as ->. destruct Hframe as (_ & Hredis & _).
  unfold is_duplicate, redis_exists, bind, log, emit, ret, record_events.
  simpl. rewrite Hredis, Hnew, Hreg. simpl.
  rewrite <- !app_assoc. reflexivity.
Qed.

Lemma callback_success tag body w task (h : Handler) :
  outcome (deserialize body) w = Ok task ->
  redis w !! _key (task_id task) = None ->
  registry !! task_type task = Some h ->
  h_raises (h task) = None ->
  process_message tag body w =
    (Ok tt,
     {| redis := <[_key (task_id task) :=
                     ("processed", REDIS_TASK_TTL settings)]> (redis w);
        clock := clock w;
        entropy := entropy (exec (deserialize body) w);
        trace := trace w ++
          [Log INFO "Task received" "received";
           RedisExists (_key (task_id task));
           Invoke (task_type task) task] ++
          map log_event (h_logs (h task)) ++
          [RedisSetex (_key (task_id task)) (REDIS_TASK_TTL settings)
             "processed";
           Log INFO "Task marked as processed in Redis" "idempotency_stored";
           BasicAck tag;
           Log INFO "Task completed successfully" "completed"] |}).
Proof.
  intros H Hnew Hreg Hok. open_callback H E; [|discriminate].
  injection H as ->. destruct Hframe as (Htrace & Hredis & Hclock & _).
  unfold is_duplicate, redis_exists, bind, log, emit, ret.
  simpl. rewrite Hredis, Hnew, Hreg. simpl.
  unfold call_handler, bind, emit. simpl.
  rewrite emit_logs_run, Hok. simpl.
  unfold mark_processed, redis_setex, bind, log, emit, ret. simpl.
  rewrite Hclock, Htrace, <- !app_assoc. reflexivity.
Qed.

Lemma callback_handler_failure tag body w task (h : Handler) e :
  outcome (deserialize body) w = Ok task ->
  redis w !! _key (task_id task) = None ->
  registry !! task_type task = Some h ->
  h_raises (h task) = Some e ->
  process_message tag body w =
    (Ok tt,
     exec (handle_failure task e)
       (record_events (exec (deserialize body) w)
          ([Log INFO "Task received" "received";
            RedisExists (_key (task_id task));
            Invoke (task_type task) task] ++
           map log_event (h_logs (h task)) ++
           [BasicAck tag]))).
Proof.
  intros H Hnew Hreg Hfail. open_callback H E; [|discriminate].
  injection H as ->. destruct Hframe as (Htrace & Hredis & Hclock & _).
  unfold is_duplicate, redis_exists, bind, log, emit, ret.
  simpl. rewrite Hredis, Hnew, Hreg. simpl.
  unfold call_handler, bind, emit. simpl.
  rewrite emit_logs_run, Hfail. simpl.
  unfold raise. simpl.
  match goal with
  | |- context [handle_failure ?t ?x ?w0] =>
      destruct (handle_failure_returns t x w0) as [t' Ht'];
      unfold outcome in Ht';
      replace w0 with (record_events w1
          ([Log INFO "Task received" "received";
            RedisExists (_key (task_id task));
            Invoke (task_type task) task] ++
           map log_event (h_logs (h task)) ++ [BasicAck tag])) in *
  end.
  - destruct (handle_failure task e _) as [r w2]. simpl in *. subst r.
    reflexivity.
  - unfold record_events. simpl. rewrite Hredis, <- !app_assoc. reflexivity.
Qed.

(** *** What is published parses back to the envelope *)

Lemma model_dump_fields t :
  exists o, model_dump t = JObj o /\
    o !! "task_id" = Some (JStr (task_id t)) /\
    o !! "task_type" = Some (JStr (task_type t)) /\
    o !! "payload" = Some (JObj (payload t)) /\
    o !! "retry_count" = Some (JInt (retry_count t)) /\
    o !! "created_at" = Some (JStr (created_at t)) /\
    o !! "max_retries" = Some (match max_retries t with
                               | Some m => JInt m
                               | None => JNull
                               end).
Proof.
  eexists. split; [reflexivity|].
  repeat split;
    repeat (rewrite lookup_insert_ne by discriminate);
    apply lookup_insert_eq.
Qed.

Hypothesis lax_int_exact : forall z, lax_int (JInt z) = Some z.

Lemma deserialize_model_dump t w :
  deserialize (Decoded (model_dump t)) w = (Ok t, w).
Proof.
  destruct (model_dump_fields t) as (o & -> & H1 & H2 & H3 & H4 & H5 & H6).
  unfold deserialize. rewrite TaskPayload_init_run.
  unfold field_value, after_init. rewrite H1, H2, H3, H4, H5, H6. simpl.
  rewrite lax_int_exact.
  destruct t as [tid tty pl rc ca [m|]]; simpl.
  - unfold optional_int_field. rewrite lax_int_exact. reflexivity.
  - reflexivity.
Qed.

(** *** The claims about the retry scheduler *)



(** *** What the callback leaves alone *)

Lemma existsb_logs (p : Event -> bool) l :
  (forall lvl msg status, p (Log lvl msg status) = false) ->
  existsb p (map log_event l) = false.
Proof.
  intros Hp. induction l as [|[[lvl msg] status] l IH]; [reflexivity|].
  simpl. by rewrite Hp, IH.
Qed.

(** [handle_failure] adds events that are neither a handler invocation, nor
    a Redis write, nor a nack; it changes neither Redis nor the UUID count. *)
Lemma handle_failure_effects task error w :
  exists evs,
    trace (exec (handle_failure task error) w) = trace w ++ evs /\
    redis (exec (handle_failure task error) w) = redis w /\
    entropy (exec (handle_failure task error) w) = entropy w /\
    existsb is_setex evs = false /\
    existsb is_nack evs = false /\
    existsb is_invoke evs = false.
Proof.
  unfold exec.
  destruct (Z_le_gt_dec (retry_count task + 1)
              (effective_budget settings task)).
  - rewrite handle_failure_retry by assumption. eexists. split; [reflexivity|].
    repeat split.
  - rewrite handle_failure_dead_letter by lia. eexists.
    split; [reflexivity|]. repeat split.
Qed.

Lemma after_deserialize {A} (m : M A) body w r evs :
  m w = (r, record_events (exec (deserialize body) w) evs) ->
  emitted m w = evs /\
  redis (exec m w) = redis w /\
  entropy (exec m w) = entropy (exec (deserialize body) w).
Proof.
  intros H. destruct (deserialize_frame body w) as (Ht & Hr & _).
  split; [|split].
  - apply emitted_trace. unfold exec at 1. rewrite H.
    unfold record_events, snd, trace at 1. by rewrite Ht.
  - unfold exec at 1. rewrite H. exact Hr.
  - unfold exec at 1. rewrite H. reflexivity.
Qed.

Lemma undecodable_untouched tag body w e :
  outcome (deserialize body) w = Raise e ->
  dedup_untouched (process_message tag body) w.
Proof.
  intros H.
  destruct (after_deserialize _ _ _ _ _ (callback_undecodable tag body w e H))
    as (Hem & Hred & _).
  split; [by rewrite Hem|exact Hred].
Qed.

Lemma duplicate_untouched tag body w task :
  outcome (deserialize body) w = Ok task ->
  is_Some (redis w !! _key (task_id task)) ->
  dedup_untouched (process_message tag body) w.
Proof.
  intros H Hdup.
  destruct (after_deserialize _ _ _ _ _
              (callback_duplicate tag body w task H Hdup)) as (Hem & Hred & _).
  split; [by rewrite Hem|exact Hred].
Qed.

Lemma unknown_type_untouched tag body w task :
  outcome (deserialize body) w = Ok task ->
  redis w !! _key (task_id task) = None ->
  registry !! task_type task = None ->
  dedup_untouched (process_message tag body) w.
Proof.
  intros H Hnew Hreg.
  destruct (after_deserialize _ _ _ _ _
              (callback_unknown_type tag body w task H Hnew Hreg))
    as (Hem & Hred & _).
  split; [by rewrite Hem|exact Hred].
Qed.

(** The world in which [handle_failure] starts after a handler raised. *)
Lemma handler_failure_trace tag body w task (h : Handler) e :
  outcome (deserialize body) w = Ok task ->
  redis w !! _key (task_id task) = None ->
  registry !! task_type task = Some h ->
  h_raises (h task) = Some e ->
  exists evs,
    emitted (process_message tag body) w =
      [Log INFO "Task received" "received";
       RedisExists (_key (task_id task));
       Invoke (task_type task) task] ++
      map log_event (h_logs (h task)) ++ [BasicAck tag] ++ evs /\
    existsb is_setex evs = false /\
    existsb is_nack evs = false /\
    existsb is_invoke evs = false /\
    redis (exec (process_message tag body) w) = redis w /\
    entropy (exec (process_message tag body) w)
      = entropy (exec (deserialize body) w).
Proof.
  intros H Hnew Hreg Hfail.
  destruct (deserialize_frame body w) as (Ht & Hr & _).
  pose proof (callback_handler_failure tag body w task h e H Hnew Hreg Hfail)
    as Hrun.
  set (w0 := record_events (exec (deserialize body) w) _) in Hrun.
  assert (Hex : exec (process_message tag body) w
                = exec (handle_failure task e) w0)
    by (unfold exec at 1; rewrite Hrun; reflexivity).
  destruct (handle_failure_effects task e w0)
    as (evs & Htr & Hred & Hent & Hs & Hn & Hi).
  exists evs. rewrite Hex.
  split; [|repeat split; try assumption].
  - apply emitted_trace. rewrite Hex, Htr. subst w0.
    unfold record_events, trace at 1. rewrite Ht, <- !app_assoc. reflexivity.
  - rewrite Hred. exact Hr.
Qed.

Lemma handler_failure_untouched tag body w task (h : Handler) e :
  outcome (deserialize body) w = Ok task ->
  redis w !! _key (task_id task) = None ->
  registry !! task_type task = Some h ->
  h_raises (h task) = Some e ->
  dedup_untouched (process_message tag body) w.
Proof.
  intros H Hnew Hreg Hfail.
  destruct (handler_failure_trace tag body w task h e H Hnew Hreg Hfail)
    as (evs & Hem & Hs & _ & _ & Hred & _).
  split; [|exact Hred].
  rewrite Hem. simpl. rewrite existsb_app.
  rewrite existsb_logs by reflexivity. simpl. exact Hs.
Qed.

(** *** The claims about the consumer callback *)

(** C2: a delivery whose [task_id] is already recorded in the dedup store is
    acknowledged at once: the callback returns normally, the only broker call
    is the ack of that delivery, no handler is invoked, no [setex] is issued
    and the store is left as it was. *)
Theorem duplicate_is_acked_without_handler tag body w task :
  outcome (deserialize body) w = Ok task ->
  is_Some (redis w !! _key (task_id task)) ->
  outcome (process_message tag body) w = Ok tt /\
  emitted (process_message tag body) w =
    [Log INFO "Task received" "received";
     RedisExists (_key (task_id task));
     Log INFO "Duplicate task detected — skipping" "duplicate_skipped";
     BasicAck tag] /\
  existsb is_invoke (emitted (process_message tag body) w) = false /\
  existsb is_setex (emitted (process_message tag body) w) = false /\
  redis (exec (process_message tag body) w) = redis w.
Proof.
  intros H Hdup.
  pose proof (callback_duplicate tag body w task H Hdup) as Hrun.
  destruct (after_deserialize _ _ _ _ _ Hrun) as (Hem & Hred & _).
  split; [unfold outcome; by rewrite Hrun|].
  rewrite Hem. repeat split. exact Hred.
Qed.

(** C3: the dedup store is written only on the success path.  Whatever the
    delivery, either the body decoded to an envelope that was not yet marked,
    its handler was found, invoked and returned, and the write is the
    [setex] of that envelope's key; or no [setex] was issued and the store
    is unchanged.  The second case is the one taken when decoding fails, when
    the task type has no handler and when the handler raises. *)
Theorem dedup_written_only_after_handler_success tag body w :
  ((exists task (h : Handler),
      outcome (deserialize body) w = Ok task /\
      redis w !! _key (task_id task) = None /\
      registry !! task_type task = Some h /\
      h_raises (h task) = None /\
      List.filter is_setex (emitted (process_message tag body) w) =
        [RedisSetex (_key (task_id task)) (REDIS_TASK_TTL settings)
           "processed"])
   \/ dedup_untouched (process_message tag body) w) /\
  (forall e, outcome (deserialize body) w = Raise e ->
     dedup_untouched (process_message tag body) w) /\
  (forall task, outcome (deserialize body) w = Ok task ->
     registry !! task_type task = None ->
     dedup_untouched (process_message tag body) w) /\
  (forall task (h : Handler) e, outcome (deserialize body) w = Ok task ->
     registry !! task_type task = Some h ->
     h_raises (h task) = Some e ->
     dedup_untouched (process_message tag body) w).
Proof.
  split; [|split; [|split]].
  - destruct (outcome (deserialize body) w) as [task|e] eqn:H;
      [|right; eapply undecodable_untouched; eassumption].
    destruct (redis w !! _key (task_id task)) as [v|] eqn:Hnew;
      [right; eapply duplicate_untouched; [eassumption|by rewrite Hnew]|].
    destruct (registry !! task_type task) as [h|] eqn:Hreg;
      [|right; eapply unknown_type_untouched; eassumption].
    destruct (h_raises (h task)) as [e|] eqn:Hh;
      [right; eapply handler_failure_untouched; eassumption|].
    left. exists task, h. repeat split; try assumption.
    erewrite emitted_trace;
      [|unfold exec; erewrite callback_success by eassumption; reflexivity].
    simpl. rewrite List.filter_app. simpl.
    assert (Hl : List.filter is_setex (map log_event (h_logs (h task))) = []).
    { induction (h_logs (h task)) as [|[[lvl msg] status] l IH];
        [reflexivity|exact IH]. }
    by rewrite Hl.
  - intros e H. eapply undecodable_untouched; eassumption.
  - intros task H Hreg.
    destruct (redis w !! _key (task_id task)) as [v|] eqn:Hnew.
    + eapply duplicate_untouched; [eassumption|by rewrite Hnew].
    + eapply unknown_type_untouched; eassumption.
  - intros task h e H Hreg Hh.
    destruct (redis w !! _key (task_id task)) as [v|] eqn:Hnew.
    + eapply duplicate_untouched; [eassumption|by rewrite Hnew].
    + eapply handler_failure_untouched; eassumption.
Qed.

(** C4: when the handler of a delivery returns, the callback writes the
    envelope's key to the dedup store with the configured TTL and only then
    acknowledges the delivery: in the events it adds, the [setex] comes after
    the handler's own records and before the ack, and the store afterwards
    holds the key. *)
Theorem success_marks_processed_then_acks tag body w task (h : Handler) :
  outcome (deserialize body) w = Ok task ->
  redis w !! _key (task_id task) = None ->
  registry !! task_type task = Some h ->
  h_raises (h task) = None ->
  outcome (process_message tag body) w = Ok tt /\
  emitted (process_message tag body) w =
    [Log INFO "Task received" "received";
     RedisExists (_key (task_id task));
     Invoke (task_type task) task] ++
    map log_event (h_logs (h task)) ++
    [RedisSetex (_key (task_id task)) (REDIS_TASK_TTL settings) "processed";
     Log INFO "Task marked as processed in Redis" "idempotency_stored";
     BasicAck tag;
     Log INFO "Task completed successfully" "completed"] /\
  redis (exec (process_message tag body) w) =
    <[_key (task_id task) := ("processed", REDIS_TASK_TTL settings)]>
      (redis w).
Proof.
  intros H Hnew Hreg Hok.
  pose proof (callback_success tag body w task h H Hnew Hreg Hok) as Hrun.
  split; [unfold outcome; by rewrite Hrun|].
  split; [apply emitted_trace|]; unfold exec at 1; by rewrite Hrun.
Qed.


(** C7, as the code has it: a body that does not decode to an envelope, and
    an envelope that is not yet marked processed and whose [task_type] has no
    registered handler, are both nacked with [requeue=False]; no handler is
    invoked and the callback returns normally. *)
Theorem rejects_undecodable_and_unknown_type tag body w :
  (forall e, outcome (deserialize body) w = Raise e ->
     outcome (process_message tag body) w = Ok tt /\
     emitted (process_message tag body) w =
       [Log ERROR "Failed to deserialize message — sending to DLQ"
          "deserialization_error";
        BasicNack tag false]) /\
  (forall task, outcome (deserialize body) w = Ok task ->
     redis w !! _key (task_id task) = None ->
     registry !! task_type task = None ->
     outcome (process_message tag body) w = Ok tt /\
     emitted (process_message tag body) w =
       [Log INFO "Task received" "received";
        RedisExists (_key (task_id task));
        Log WARNING "Unknown task_type — discarding" "unknown_task_type";
        BasicNack tag false]).
Proof.
  split.
  - intros e H. pose proof (callback_undecodable tag body w e H) as Hrun.
    destruct (after_deserialize _ _ _ _ _ Hrun) as (Hem & _).
    split; [unfold outcome; by rewrite Hrun|exact Hem].
  - intros task H Hnew Hreg.
    pose proof (callback_unknown_type tag body w task H Hnew Hreg) as Hrun.
    destruct (after_deserialize _ _ _ _ _ Hrun) as (Hem & _).
    split; [unfold outcome; by rewrite Hrun|exact Hem].
Qed.

(** *** Dead-letter routing *)

(** C9: the explicit dead-letter publish goes to the exchange named
    [DLQ_EXCHANGE], which is the exchange the startup declarations give the
    main queue as its [x-dead-letter-exchange]; both bind the queue named
    [DLQ_QUEUE] to it with the empty routing key.  In [_publish_to_dlq] the
    exchange, the queue and the binding are declared before the publish, and
    [handle_failure] dead-letters through [_publish_to_dlq] only. *)
Theorem dead_letter_paths_share_destination task error w :
  emitted (_publish_to_dlq settings task) w =
    [Connect;
     ExchangeDeclare (DLQ_EXCHANGE settings) "fanout" true;
     QueueDeclare (DLQ_QUEUE settings) true None;
     QueueBind (DLQ_QUEUE settings) (DLQ_EXCHANGE settings) "";
     BasicPublish (DLQ_EXCHANGE settings) "" (Decoded (model_dump task))
       (json_properties task);
     Log ERROR "Task published to Dead Letter Queue" "dlq_published";
     CloseConnection] /\
  emitted (_declare_infrastructure settings) w =
    [ExchangeDeclare (DLQ_EXCHANGE settings) "fanout" true;
     QueueDeclare (DLQ_QUEUE settings) true None;
     QueueBind (DLQ_QUEUE settings) (DLQ_EXCHANGE settings) "";
     ExchangeDeclare (EXCHANGE_NAME settings) (EXCHANGE_TYPE settings) true;
     QueueDeclare (TASK_QUEUE settings) true (Some (DLQ_EXCHANGE settings));
     QueueBind (TASK_QUEUE settings) (EXCHANGE_NAME settings)
       (ROUTING_KEY settings)] /\
  (effective_budget settings task < retry_count task + 1 ->
   emitted (handle_failure task error) w =
     Log ERROR "Task exceeded max retries — sending to Dead Letter Queue"
       "dead_lettered"
     :: emitted (_publish_to_dlq settings
                   (set_retry_count task (retry_count task + 1))) w).
Proof.
  assert (Hdlq : forall t, emitted (_publish_to_dlq settings t) w =
    [Connect;
     ExchangeDeclare (DLQ_EXCHANGE settings) "fanout" true;
     QueueDeclare (DLQ_QUEUE settings) true None;
     QueueBind (DLQ_QUEUE settings) (DLQ_EXCHANGE settings) "";
     BasicPublish (DLQ_EXCHANGE settings) "" (Decoded (model_dump t))
       (json_properties t);
     Log ERROR "Task published to Dead Letter Queue" "dlq_published";
     CloseConnection]).
  { intros t. apply emitted_trace.
    unfold exec, _publish_to_dlq, _get_connection, try_finally, bind, log,
      emit. simpl. rewrite <- !app_assoc. reflexivity. }
  split; [apply Hdlq|split].
  - apply emitted_trace.
    unfold exec, _declare_infrastructure, bind, emit. simpl.
    rewrite <- !app_assoc. reflexivity.
  - intros Hgt. rewrite Hdlq. apply emitted_record. unfold exec.
    by rewrite handle_failure_dead_letter.
Qed.

(** *** Envelopes with missing fields *)

Lemma envelope_accepted o ty w :
  o !! "task_type" = Some (JStr ty) ->
  absent_or_valid o "task_id" str_field ->
  absent_or_valid o "payload" dict_field ->
  absent_or_valid o "retry_count" lax_int ->
  absent_or_valid o "created_at" str_field ->
  absent_or_valid o "max_retries" (optional_int_field lax_int) ->
  exists t,
    deserialize (Decoded (JObj o)) w = (Ok t, after_init o w) /\
    task_type t = ty /\
    field_value o "task_id" str_field (uuid4 (entropy w))
      = Some (task_id t) /\
    field_value o "payload" dict_field ∅ = Some (payload t) /\
    field_value o "retry_count" lax_int 0 = Some (retry_count t) /\
    field_value o "created_at" str_field (isoformat (clock w))
      = Some (created_at t) /\
    field_value o "max_retries" (optional_int_field lax_int) None
      = Some (max_retries t).
Proof.
  unfold absent_or_valid. intros Hty H1 H3 H4 H5 H6.
  unfold deserialize. rewrite TaskPayload_init_run.
  unfold field_value. rewrite Hty.
  destruct (o !! "task_id") as [v1|]; [destruct H1 as [x1 ->]|];
  (destruct (o !! "payload") as [v3|]; [destruct H3 as [x3 ->]|]);
  (destruct (o !! "retry_count") as [v4|]; [destruct H4 as [x4 ->]|]);
  (destruct (o !! "created_at") as [v5|]; [destruct H5 as [x5 ->]|]);
  (destruct (o !! "max_retries") as [v6|]; [destruct H6 as [x6 ->]|]);
  eexists; (split; [reflexivity|]); repeat split.
Qed.

Lemma callback_entropy tag body w :
  entropy (exec (process_message tag body) w)
  = entropy (exec (deserialize body) w).
Proof.
  destruct (outcome (deserialize body) w) as [task|e] eqn:H.
  2: { eapply after_deserialize, callback_undecodable, H. }
  destruct (redis w !! _key (task_id task)) as [v|] eqn:Hnew.
  { eapply after_deserialize, callback_duplicate; [exact H|by rewrite Hnew]. }
  destruct (registry !! task_type task) as [h|] eqn:Hreg.
  2: { eapply after_deserialize, callback_unknown_type; eassumption. }
  destruct (h_raises (h task)) as [e|] eqn:Hh.
  - destruct (handler_failure_trace tag body w task h e H Hnew Hreg Hh)
      as (evs & _ & _ & _ & _ & _ & Hent). exact Hent.
  - unfold exec at 1. by erewrite callback_success by eassumption.
Qed.

(** C10: of the six fields only [task_type] is required.  A decoded object
    without [task_type] is rejected.  One with a string [task_type], in which
    every other key is absent or valid, is accepted, and each absent key
    takes its default: a freshly drawn UUID for [task_id], the empty payload,
    [retry_count] 0, the current time for [created_at], no [max_retries].
    When [task_id] is absent the same body delivered again is given the next
    UUID drawn, so its idempotency key differs from the first one's whenever
    the generator does not repeat itself. *)
Theorem only_task_type_is_required o w tag :
  (o !! "task_type" = None ->
   exists e, outcome (deserialize (Decoded (JObj o))) w = Raise e) /\
  (forall ty,
     o !! "task_type" = Some (JStr ty) ->
     absent_or_valid o "task_id" str_field ->
     absent_or_valid o "payload" dict_field ->
     absent_or_valid o "retry_count" lax_int ->
     absent_or_valid o "created_at" str_field ->
     absent_or_valid o "max_retries" (optional_int_field lax_int) ->
     exists t,
       outcome (deserialize (Decoded (JObj o))) w = Ok t /\
       task_type t = ty /\
       (o !! "task_id" = None -> task_id t = uuid4 (entropy w)) /\
       (o !! "payload" = None -> payload t = ∅) /\
       (o !! "retry_count" = None -> retry_count t = 0) /\
       (o !! "created_at" = None -> created_at t = isoformat (clock w)) /\
       (o !! "max_retries" = None -> max_retries t = None) /\
       (o !! "task_id" = None ->
        exists t',
          outcome (deserialize (Decoded (JObj o)))
            (exec (process_message tag (Decoded (JObj o))) w) = Ok t' /\
          task_id t' = uuid4 (S (entropy w)) /\
          ((forall m n, uuid4 m = uuid4 n -> m = n) ->
           task_id t' <> task_id t))).
Proof.
  split.
  - intros Hty. unfold outcome, deserialize. rewrite TaskPayload_init_run.
    rewrite Hty. simpl.
    destruct (field_value o "task_id" str_field (uuid4 (entropy w)));
      eauto.
  - intros ty Hty H1 H3 H4 H5 H6.
    destruct (envelope_accepted o ty w Hty H1 H3 H4 H5 H6)
      as (t & Hrun & Htype & F1 & F3 & F4 & F5 & F6).
    exists t. unfold field_value in F1, F3, F4, F5, F6.
    split; [unfold outcome; by rewrite Hrun|].
    split; [exact Htype|].
    split; [intros E; rewrite E in F1; congruence|].
    split; [intros E; rewrite E in F3; congruence|].
    split; [intros E; rewrite E in F4; congruence|].
    split; [intros E; rewrite E in F5; congruence|].
    split; [intros E; rewrite E in F6; congruence|].
    intros E.
    set (w' := exec (process_message tag (Decoded (JObj o))) w).
    assert (Hent : entropy w' = S (entropy w)).
    { subst w'. rewrite callback_entropy. unfold exec. rewrite Hrun.
      unfold after_init. by rewrite E. }
    destruct (envelope_accepted o ty w' Hty H1 H3 H4 H5 H6)
      as (t' & Hrun' & _ & F1' & _).
    exists t'. unfold field_value in F1'. rewrite E, Hent in F1'.
    rewrite E in F1.
    split; [unfold outcome; by rewrite Hrun'|].
    split; [congruence|].
    intros Hinj Heq.
    assert (uuid4 (S (entropy w)) = uuid4 (entropy w)) as Hu by congruence.
    apply Hinj in Hu. lia.
Qed.

End WorkerFacts.

(** ** Redelivery of republished envelopes *)

Lemma last_published_app ex rk l1 l2 :
  last_published ex rk (l1 ++ l2) =
    match last_published ex rk l2 with
    | Some b => Some b
    | None => last_published ex rk l1
    end.
Proof.
  induction l1 as [|e l1 IH]; simpl.
  - by destruct (last_published ex rk l2).
  - destruct e; try exact IH. rewrite IH.
    by destruct (last_published ex rk l2).
Qed.

Lemma last_published_logs ex rk l :
  last_published ex rk (map log_event l) = None.
Proof. induction l as [|[[lvl msg] status] l IH]; [reflexivity|exact IH]. Qed.

Lemma schedule_app l1 l2 : schedule (l1 ++ l2) = schedule l1 ++ schedule l2.
Proof. apply List.filter_app. Qed.

Lemma schedule_logs l : schedule (map log_event l) = [].
Proof. induction l as [|[[lvl msg] status] l IH]; [reflexivity|exact IH]. Qed.

Section RedeliveryFacts.

Variable settings : WorkerSettings.
Variable registry : gmap string Handler.
Variable lax_int : json -> option Z.
Variable uuid4 : nat -> string.
Variable isoformat : Q -> string.

Hypothesis lax_int_exact : forall z, lax_int (JInt z) = Some z.

#[local] Abbreviation process_message :=
  (process_message settings registry lax_int uuid4 isoformat).
#[local] Abbreviation deliver :=
  (deliver settings registry lax_int uuid4 isoformat).

Lemma failing_delivery tag task (h : Handler) e w :
  registry !! task_type task = Some h ->
  h_raises (h task) = Some e ->
  redis w !! _key (task_id task) = None ->
  exec (process_message tag (Decoded (model_dump task))) w =
    exec (handle_failure settings task e)
      (record_events w (attempt_events tag task h)).
Proof.
  intros Hreg Hfail Hnew.
  assert (Hdec : deserialize lax_int uuid4 isoformat
                   (Decoded (model_dump task)) w = (Ok task, w))
    by (by apply deserialize_model_dump).
  unfold exec at 1.
  erewrite callback_handler_failure; try eassumption.
  - unfold exec at 2. rewrite Hdec. reflexivity.
  - unfold outcome. by rewrite Hdec.
Qed.

Lemma deliver_S n tag body w :
  deliver (S n) tag body w =
    let w' := exec (process_message tag body) w in
    match last_published (EXCHANGE_NAME settings) (ROUTING_KEY settings)
            (drop (length (trace w)) (trace w')) with
    | Some body' =>
        let (k, w'') := deliver n (tag + 1) body' w' in (S k, w'')
    | None => (1%nat, w')
    end.
Proof. reflexivity. Qed.

(** A failing delivery within the budget: the envelope comes back. *)
Lemma deliver_retry n tag task (h : Handler) e w :
  registry !! task_type task = Some h ->
  h_raises (h task) = Some e ->
  redis w !! _key (task_id task) = None ->
  retry_count task + 1 <= effective_budget settings task ->
  exists w1,
    redis w1 = redis w /\
    trace w1 = trace w ++ attempt_events tag task h ++
      [Log WARNING "Task failed — scheduling retry" "retrying";
       Sleep (RETRY_BASE_DELAY settings ^ (retry_count task + 1));
       Connect;
       BasicPublish (EXCHANGE_NAME settings) (ROUTING_KEY settings)
         (Decoded (model_dump (set_retry_count task (retry_count task + 1))))
         (json_properties task);
       Log INFO "Task re-queued for retry" "re_queued";
       CloseConnection] /\
    deliver (S n) tag (Decoded (model_dump task)) w =
      (let (k, w2) :=
         deliver n (tag + 1)
           (Decoded (model_dump
                       (set_retry_count task (retry_count task + 1)))) w1 in
       (S k, w2)).
Proof.
  intros Hreg Hfail Hnew Hle.
  eexists. split; [|split].
  3: { rewrite deliver_S. cbv zeta.
       rewrite (failing_delivery tag task h e w Hreg Hfail Hnew).
       unfold exec. rewrite handle_failure_retry by assumption.
       cbn [snd trace redis clock entropy record_events].
       rewrite <- app_assoc, drop_app_length.
       unfold attempt_events.
       rewrite !last_published_app, last_published_logs. simpl.
       rewrite !String.eqb_refl. simpl. reflexivity. }
  - reflexivity.
  - cbn [trace]. unfold attempt_events.
    simpl; rewrite <- ?app_assoc; simpl; rewrite <- ?app_assoc; reflexivity.
Qed.

(** A failing delivery beyond the budget: nothing comes back. *)
Lemma deliver_dead_letter n tag task (h : Handler) e w :
  registry !! task_type task = Some h ->
  h_raises (h task) = Some e ->
  redis w !! _key (task_id task) = None ->
  effective_budget settings task < retry_count task + 1 ->
  (EXCHANGE_NAME settings =? DLQ_EXCHANGE settings)%string = false ->
  exists w1,
    trace w1 = trace w ++ attempt_events tag task h ++
      [Log ERROR "Task exceeded max retries — sending to Dead Letter Queue"
         "dead_lettered";
       Connect;
       ExchangeDeclare (DLQ_EXCHANGE settings) "fanout" true;
       QueueDeclare (DLQ_QUEUE settings) true None;
       QueueBind (DLQ_QUEUE settings) (DLQ_EXCHANGE settings) "";
       BasicPublish (DLQ_EXCHANGE settings) ""
         (Decoded (model_dump (set_retry_count task (retry_count task + 1))))
         (json_properties task);
       Log ERROR "Task published to Dead Letter Queue" "dlq_published";
       CloseConnection] /\
    deliver (S n) tag (Decoded (model_dump task)) w = (1%nat, w1).
Proof.
  intros Hreg Hfail Hnew Hgt Hex.
  eexists. split.
  2: { rewrite deliver_S. cbv zeta.
       rewrite (failing_delivery tag task h e w Hreg Hfail Hnew).
       unfold exec. rewrite handle_failure_dead_letter by assumption.
       cbn [snd trace redis clock entropy record_events].
       rewrite <- app_assoc, drop_app_length.
       unfold attempt_events.
       rewrite !last_published_app, last_published_logs. simpl.
       rewrite String.eqb_sym, Hex. simpl. reflexivity. }
  cbn [trace]. unfold attempt_events.
  simpl; rewrite <- ?app_assoc; simpl; rewrite <- ?app_assoc; reflexivity.
Qed.


Lemma set_retry_count_twice t a b :
  set_retry_count (set_retry_count t a) b = set_retry_count t b.
Proof. reflexivity. Qed.

Lemma retry_count_set t a : retry_count (set_retry_count t a) = a.
Proof. reflexivity. Qed.

Lemma json_properties_set t a :
  json_properties (set_retry_count t a) = json_properties t.
Proof. reflexivity. Qed.

Lemma schedule_attempt tag task (h : Handler) :
  schedule (attempt_events tag task h) = [].
Proof.
  unfold attempt_events. rewrite !schedule_app, schedule_logs. reflexivity.
Qed.

(** C6: with budget 3 and base delay 2, a task whose handler always fails
    is delivered four times.  The waits and publishes of the whole run are:
    wait 2 s, republish with [retry_count] 1; wait 4 s, republish with 2;
    wait 8 s, republish with 3; then, the count 4 exceeding the budget, one
    publish to the dead-letter exchange and nothing more. *)
Theorem always_failing_task_schedule n tag task (h : Handler) w :
  MAX_RETRIES settings = 3 ->
  RETRY_BASE_DELAY settings = 2%Q ->
  (EXCHANGE_NAME settings =? DLQ_EXCHANGE settings)%string = false ->
  registry !! task_type task = Some h ->
  (forall t, is_Some (h_raises (h t))) ->
  retry_count task = 0 ->
  max_retries task = None ->
  redis w !! _key (task_id task) = None ->
  (4 <= n)%nat ->
  exists w',
    deliver n tag (Decoded (model_dump task)) w = (4%nat, w') /\
    schedule (drop (length (trace w)) (trace w')) =
      [Sleep 2;
       BasicPublish (EXCHANGE_NAME settings) (ROUTING_KEY settings)
         (Decoded (model_dump (set_retry_count task 1)))
         (json_properties task);
       Sleep 4;
       BasicPublish (EXCHANGE_NAME settings) (ROUTING_KEY settings)
         (Decoded (model_dump (set_retry_count task 2)))
         (json_properties task);
       Sleep 8;
       BasicPublish (EXCHANGE_NAME settings) (ROUTING_KEY settings)
         (Decoded (model_dump (set_retry_count task 3)))
         (json_properties task);
       BasicPublish (DLQ_EXCHANGE settings) ""
         (Decoded (model_dump (set_retry_count task 4)))
         (json_properties task)].
Proof.
  intros Hmax Hbase Hex Hreg Hfails Hrc Hmr Hnew Hn.
  destruct n as [|[|[|[|m]]]]; try lia.
  assert (Hbudget : forall k, effective_budget settings (set_retry_count task k)
                              = 3)
    by (intros k; unfold effective_budget, set_retry_count, max_retries;
        fold (max_retries task); by rewrite Hmr).
  assert (Hbudget0 : effective_budget settings task = 3)
    by (unfold effective_budget; by rewrite Hmr).
  (* first delivery *)
  destruct (Hfails task) as [e0 He0].
  destruct (deliver_retry (S (S (S m))) tag task h e0 w Hreg He0 Hnew)
    as (w1 & Hr1 & Ht1 & Hd1); [rewrite Hbudget0, Hrc; lia|].
  rewrite Hrc in Ht1, Hd1. change (0 + 1) with 1 in Ht1, Hd1.
  (* second delivery *)
  destruct (Hfails (set_retry_count task 1)) as [e1 He1].
  destruct (deliver_retry (S (S m)) (tag + 1) (set_retry_count task 1) h e1 w1
              Hreg He1)
    as (w2 & Hr2 & Ht2 & Hd2);
    [by rewrite Hr1|rewrite Hbudget; rewrite retry_count_set; lia|].
  rewrite ?retry_count_set, ?set_retry_count_twice, ?json_properties_set
    in Ht2, Hd2.
  change (1 + 1) with 2 in Ht2, Hd2.
  (* third delivery *)
  destruct (Hfails (set_retry_count task 2)) as [e2 He2].
  destruct (deliver_retry (S m) (tag + 1 + 1) (set_retry_count task 2) h e2 w2
              Hreg He2)
    as (w3 & Hr3 & Ht3 & Hd3);
    [by rewrite Hr2, Hr1
    |rewrite Hbudget; rewrite retry_count_set; lia|].
  rewrite ?retry_count_set, ?set_retry_count_twice, ?json_properties_set
    in Ht3, Hd3.
  change (2 + 1) with 3 in Ht3, Hd3.
  (* fourth delivery *)
  destruct (Hfails (set_retry_count task 3)) as [e3 He3].
  destruct (deliver_dead_letter m (tag + 1 + 1 + 1) (set_retry_count task 3)
              h e3 w3 Hreg He3)
    as (w4 & Ht4 & Hd4);
    [by rewrite Hr3, Hr2, Hr1
    |rewrite Hbudget; rewrite retry_count_set; lia
    |exact Hex|].
  rewrite ?retry_count_set, ?set_retry_count_twice, ?json_properties_set
    in Ht4.
  change (3 + 1) with 4 in Ht4.
  exists w4. split.
  - rewrite Hd1, Hd2, Hd3, Hd4. reflexivity.
  - rewrite Ht4, Ht3, Ht2, Ht1, <- !app_assoc, drop_app_length.
    rewrite !schedule_app, !schedule_attempt, Hbase. reflexivity.
Qed.

End RedeliveryFacts.

(** * The deployed worker on concrete deliveries *)

Lemma exact_int_exact z : exact_int (JInt z) = Some z.
Proof. reflexivity. Qed.

Lemma counter_uuid_inj m n : counter_uuid m = counter_uuid n -> m = n.
Proof.
  unfold counter_uuid. intros H. cbn [String.append] in H.
  injection H as H. exact (pretty_nat_inj _ _ H).
Qed.


(** C2 on the deployed worker: task [T1] delivered again after it was marked. *)
Lemma duplicate_is_acked_without_handler_witness :
  outcome (worker_process_message 7 (Decoded (model_dump email_task)))
    marked_world = Ok tt /\
  emitted (worker_process_message 7 (Decoded (model_dump email_task)))
    marked_world =
    [Log INFO "Task received" "received";
     RedisExists (_key (task_id email_task));
     Log INFO "Duplicate task detected — skipping" "duplicate_skipped";
     BasicAck 7] /\
  existsb is_invoke
    (emitted (worker_process_message 7 (Decoded (model_dump email_task)))
       marked_world) = false /\
  existsb is_setex
    (emitted (worker_process_message 7 (Decoded (model_dump email_task)))
       marked_world) = false /\
  redis (exec (worker_process_message 7 (Decoded (model_dump email_task)))
           marked_world) = redis marked_world.
Proof.
  apply (duplicate_is_acked_without_handler default_settings TASK_HANDLERS
           exact_int counter_uuid fixed_isoformat 7
           (Decoded (model_dump email_task)) marked_world email_task).
  - vm_compute. reflexivity.
  - vm_compute. eexists. reflexivity.
Defined.

(** C4 on the deployed worker: a first delivery of the email task. *)
Lemma success_marks_processed_then_acks_witness :
  outcome (worker_process_message 7 (Decoded (model_dump email_task)))
    empty_world = Ok tt /\
  emitted (worker_process_message 7 (Decoded (model_dump email_task)))
    empty_world =
    [Log INFO "Task received" "received";
     RedisExists (_key (task_id email_task));
     Invoke (task_type email_task) email_task] ++
    map log_event (h_logs (_handle_send_email email_task)) ++
    [RedisSetex (_key (task_id email_task))
       (REDIS_TASK_TTL default_settings) "processed";
     Log INFO "Task marked as processed in Redis" "idempotency_stored";
     BasicAck 7;
     Log INFO "Task completed successfully" "completed"] /\
  redis (exec (worker_process_message 7 (Decoded (model_dump email_task)))
           empty_world) =
    <[_key (task_id email_task) :=
        ("processed", REDIS_TASK_TTL default_settings)]> (redis empty_world).
Proof.
  apply (success_marks_processed_then_acks default_settings TASK_HANDLERS
           exact_int counter_uuid fixed_isoformat 7
           (Decoded (model_dump email_task)) empty_world email_task
           _handle_send_email).
  - vm_compute. reflexivity.
  - reflexivity.
  - reflexivity.
  - reflexivity.
Defined.


(** C6 on the deployed worker: the failing task, redelivered up to ten times. *)
Lemma always_failing_task_schedule_witness :
  exists w',
    deliver default_settings TASK_HANDLERS exact_int counter_uuid
      fixed_isoformat 10 1 (Decoded (model_dump failing_task)) empty_world
      = (4%nat, w') /\
    schedule (drop (length (trace empty_world)) (trace w')) =
      [Sleep 2;
       BasicPublish "task_exchange" "task.process"
         (Decoded (model_dump (set_retry_count failing_task 1)))
         (json_properties failing_task);
       Sleep 4;
       BasicPublish "task_exchange" "task.process"
         (Decoded (model_dump (set_retry_count failing_task 2)))
         (json_properties failing_task);
       Sleep 8;
       BasicPublish "task_exchange" "task.process"
         (Decoded (model_dump (set_retry_count failing_task 3)))
         (json_properties failing_task);
       BasicPublish "dlq_exchange" ""
         (Decoded (model_dump (set_retry_count failing_task 4)))
         (json_properties failing_task)].
Proof.
  apply (always_failing_task_schedule default_settings TASK_HANDLERS
           exact_int counter_uuid fixed_isoformat exact_int_exact
           10 1 failing_task _handle_fail_task empty_world).
  - reflexivity.
  - reflexivity.
  - reflexivity.
  - reflexivity.
  - intros t. eexists. reflexivity.
  - reflexivity.
  - reflexivity.
  - reflexivity.
  - unfold ge. lia.
Defined.

(** C7 on the deployed worker: a body that is not JSON, and an unmarked
    envelope of an unregistered type. *)
Lemma rejects_undecodable_and_unknown_type_witness :
  (outcome (worker_process_message 3 (Undecodable "{not json")) empty_world
     = Ok tt /\
   emitted (worker_process_message 3 (Undecodable "{not json")) empty_world =
     [Log ERROR "Failed to deserialize message — sending to DLQ"
        "deserialization_error";
      BasicNack 3 false]) /\
  (outcome (worker_process_message 4 (Decoded (model_dump unknown_task)))
     empty_world = Ok tt /\
   emitted (worker_process_message 4 (Decoded (model_dump unknown_task)))
     empty_world =
     [Log INFO "Task received" "received";
      RedisExists (_key (task_id unknown_task));
      Log WARNING "Unknown task_type — discarding" "unknown_task_type";
      BasicNack 4 false]).
Proof.
  split.
  - apply (proj1 (rejects_undecodable_and_unknown_type default_settings
                    TASK_HANDLERS exact_int counter_uuid fixed_isoformat 3
                    (Undecodable "{not json") empty_world)
             (mkExn "JSONDecodeError" "invalid JSON")).
    reflexivity.
  - apply (proj2 (rejects_undecodable_and_unknown_type default_settings
                    TASK_HANDLERS exact_int counter_uuid fixed_isoformat 4
                    (Decoded (model_dump unknown_task)) empty_world)
             unknown_task).
    + vm_compute. reflexivity.
    + reflexivity.
    + reflexivity.
Defined.

(** The claim C7 as first stated fails here: the envelope decodes, its task
    type has no handler, and yet the delivery is acknowledged, not nacked,
    because its [task_id] is already in the dedup store. *)
Lemma unknown_type_of_marked_task_is_acked :
  outcome (deserialize exact_int counter_uuid fixed_isoformat
             (Decoded (model_dump unknown_task))) marked_world
    = Ok unknown_task /\
  TASK_HANDLERS !! task_type unknown_task = None /\
  emitted (worker_process_message 5 (Decoded (model_dump unknown_task)))
    marked_world =
    [Log INFO "Task received" "received";
     RedisExists "task:processed:T1";
     Log INFO "Duplicate task detected — skipping" "duplicate_skipped";
     BasicAck 5] /\
  existsb is_nack
    (emitted (worker_process_message 5 (Decoded (model_dump unknown_task)))
       marked_world) = false.
Proof.
  split; [vm_compute; reflexivity|].
  split; [reflexivity|].
  split; vm_compute; reflexivity.
Qed.

(** C10 on the deployed worker: the empty object is rejected; the object
    holding only a task type is accepted with every default, and delivered
    twice it gets the ids [uuid-0] and then [uuid-1]. *)
Lemma only_task_type_is_required_witness :
  (exists e, outcome (deserialize exact_int counter_uuid fixed_isoformat
                        (Decoded (JObj ∅))) empty_world = Raise e) /\
  (exists t t',
     outcome (deserialize exact_int counter_uuid fixed_isoformat
                (Decoded (JObj bare_object))) empty_world = Ok t /\
     task_type t = "send_email" /\
     task_id t = counter_uuid 0 /\
     payload t = ∅ /\
     retry_count t = 0 /\
     created_at t = fixed_isoformat 0 /\
     max_retries t = None /\
     outcome (deserialize exact_int counter_uuid fixed_isoformat
                (Decoded (JObj bare_object)))
       (exec (worker_process_message 1 (Decoded (JObj bare_object)))
          empty_world) = Ok t' /\
     task_id t' = counter_uuid 1 /\
     task_id t' <> task_id t).
Proof.
  split.
  - apply (proj1 (only_task_type_is_required default_settings TASK_HANDLERS
                    exact_int counter_uuid fixed_isoformat ∅ empty_world 1)).
    reflexivity.
  - destruct (proj2 (only_task_type_is_required default_settings TASK_HANDLERS
                       exact_int counter_uuid fixed_isoformat bare_object
                       empty_world 1) "send_email")
      as (t & Hrun & Hty & Hid & Hpl & Hrc & Hca & Hmr & Hagain);
      [reflexivity|exact I|exact I|exact I|exact I|exact I|].
    destruct (Hagain eq_refl) as (t' & Hrun' & Hid' & Hfresh).
    exists t, t'.
    split; [exact Hrun|]. split; [exact Hty|].
    split; [exact (Hid eq_refl)|]. split; [exact (Hpl eq_refl)|].
    split; [exact (Hrc eq_refl)|]. split; [exact (Hca eq_refl)|].
    split; [exact (Hmr eq_refl)|]. split; [exact Hrun'|].
    split; [exact Hid'|]. exact (Hfresh counter_uuid_inj).
Defined.

(** * More facts *)

(** ** Every path of the callback *)

Lemma settled_tags_app l1 l2 :
  settled_tags (l1 ++ l2) = settled_tags l1 ++ settled_tags l2.
Proof. apply omap_app. Qed.

Lemma settled_tags_logs l : settled_tags (map log_event l) = [].
Proof. induction l as [|[[lvl msg] status] l IH]; [reflexivity|exact IH]. Qed.

Lemma filter_logs (p : Event -> bool) l :
  (forall lvl msg status, p (Log lvl msg status) = false) ->
  List.filter p (map log_event l) = [].
Proof.
  intros Hp. induction l as [|[[lvl msg] status] l IH]; [reflexivity|].
  simpl. by rewrite Hp.
Qed.

Lemma publishes_app l1 l2 : publishes (l1 ++ l2) = publishes l1 ++ publishes l2.
Proof.
  induction l1 as [|e l1 IH]; [reflexivity|].
  destruct e; simpl; rewrite ?IH; reflexivity.
Qed.

Lemma publishes_logs l : publishes (map log_event l) = [].
Proof. induction l as [|[[lvl msg] status] l IH]; [reflexivity|exact IH]. Qed.

Section CallbackPaths.

Variable settings : WorkerSettings.
Variable registry : gmap string Handler.
Variable lax_int : json -> option Z.
Variable uuid4 : nat -> string.
Variable isoformat : Q -> string.

#[local] Abbreviation deserialize := (deserialize lax_int uuid4 isoformat).
#[local] Abbreviation process_message :=
  (process_message settings registry lax_int uuid4 isoformat).
#[local] Abbreviation failure_events := (failure_events settings).
#[local] Abbreviation path_events := (path_events settings).
#[local] Abbreviation takes := (takes registry lax_int uuid4 isoformat).

Lemma handle_failure_trace task error w :
  trace (exec (handle_failure settings task error) w)
  = trace w ++ failure_events task.
Proof.
  unfold exec, failure_events.
  destruct (Z.leb_spec (retry_count task + 1) (effective_budget settings task)).
  - by rewrite handle_failure_retry.
  - by rewrite handle_failure_dead_letter.
Qed.

Lemma callback_takes_a_path body w : exists p, takes body w p.
Proof.
  destruct (outcome (deserialize body) w) as [task|e] eqn:H;
    [|exists Undecoded; simpl; eauto].
  destruct (redis w !! _key (task_id task)) as [v|] eqn:Hnew;
    [exists (Duplicate task); simpl; rewrite Hnew; eauto|].
  destruct (registry !! task_type task) as [h|] eqn:Hreg;
    [|exists (UnknownType task); simpl; eauto].
  destruct (h_raises (h task)) as [e|] eqn:Hh.
  - exists (Failed task h e). simpl. eauto.
  - exists (Succeeded task h). simpl. eauto.
Qed.

Lemma callback_on_path tag body w p :
  takes body w p ->
  outcome (process_message tag body) w = Ok tt /\
  trace (exec (process_message tag body) w) = trace w ++ path_events tag p.
Proof.
  destruct (deserialize_frame lax_int uuid4 isoformat body w) as (Ht & _).
  destruct p as [|task|task|task h|task h e]; simpl.
  - intros [e H].
    pose proof (callback_undecodable settings registry _ _ _ tag body w e H)
      as Hrun.
    unfold outcome, exec. rewrite Hrun. cbn [fst snd record_events trace].
    by rewrite Ht.
  - intros [H Hdup].
    pose proof (callback_duplicate settings registry _ _ _ tag body w task
                  H Hdup) as Hrun.
    unfold outcome, exec. rewrite Hrun. cbn [fst snd record_events trace].
    by rewrite Ht.
  - intros (H & Hnew & Hreg).
    pose proof (callback_unknown_type settings registry _ _ _ tag body w task
                  H Hnew Hreg) as Hrun.
    unfold outcome, exec. rewrite Hrun. cbn [fst snd record_events trace].
    by rewrite Ht.
  - intros (H & Hnew & Hreg & Hok).
    pose proof (callback_success settings registry _ _ _ tag body w task h
                  H Hnew Hreg Hok) as Hrun.
    unfold outcome, exec. rewrite Hrun. by cbn [fst snd trace].
  - intros (H & Hnew & Hreg & Hfail).
    pose proof (callback_handler_failure settings registry _ _ _ tag body w
                  task h e H Hnew Hreg Hfail) as Hrun.
    unfold outcome. rewrite Hrun. split; [reflexivity|].
    unfold exec at 1. rewrite Hrun. cbn [snd].
    rewrite handle_failure_trace. cbn [record_events trace].
    rewrite Ht, <- !app_assoc. reflexivity.
Qed.

Lemma callback_emitted tag body w p :
  takes body w p ->
  emitted (process_message tag body) w = path_events tag p.
Proof. intros H. apply emitted_trace, callback_on_path, H. Qed.

Lemma failure_events_settle_nothing task :
  List.filter is_settlement (failure_events task) = [].
Proof. unfold failure_events. by destruct (_ <=? _). Qed.



End CallbackPaths.

(** ** The dedup store *)

Lemma _key_inj a b : _key a = _key b -> a = b.
Proof.
  unfold _key. cbn [String.append]. intros H. by injection H.
Qed.

Lemma is_duplicate_run tid w :
  is_duplicate tid w =
    (Ok (bool_decide (is_Some (redis w !! _key tid))),
     record_events w
       (RedisExists (_key tid) ::
        if bool_decide (is_Some (redis w !! _key tid))
        then [Log INFO "Duplicate task detected — skipping"
                "duplicate_skipped"]
        else [])).
Proof.
  unfold is_duplicate, redis_exists, bind, log, emit, ret, record_events.
  simpl. destruct (bool_decide _); simpl; by rewrite <- ?app_assoc.
Qed.

(** X3: the two operations of the dedup store fit together.  A task id that
    was marked is reported as a duplicate; marking one id does not change
    the answer for any other id; the check itself never changes the store and
    answers true exactly when the id's key is present; marking twice leaves
    the store as marking once does. *)
Theorem mark_processed_then_is_duplicate settings tid tid' w :
  outcome (mark_processed settings tid ;;; is_duplicate tid) w = Ok true /\
  (tid' <> tid ->
   outcome (mark_processed settings tid ;;; is_duplicate tid') w
   = outcome (is_duplicate tid') w) /\
  redis (exec (is_duplicate tid) w) = redis w /\
  (outcome (is_duplicate tid) w = Ok true
   <-> is_Some (redis w !! _key tid)) /\
  redis (exec (mark_processed settings tid ;;; mark_processed settings tid) w)
  = redis (exec (mark_processed settings tid) w).
Proof.
  split; [|split; [|split; [|split]]].
  - unfold outcome, bind, mark_processed, redis_setex, log, emit. simpl.
    rewrite is_duplicate_run. simpl.
    rewrite lookup_insert_eq. f_equal.
  - intros Hne.
    unfold outcome, bind, mark_processed, redis_setex, log, emit. simpl.
    rewrite !is_duplicate_run. simpl.
    rewrite lookup_insert_ne; [reflexivity|].
    intros Heq. apply Hne. symmetry. by apply _key_inj.
  - unfold exec. by rewrite is_duplicate_run.
  - unfold outcome. rewrite is_duplicate_run. simpl. split.
    + intros H. injection H as H. by apply bool_decide_eq_true in H.
    + intros H. f_equal. by apply bool_decide_eq_true_2.
  - unfold exec, bind, mark_processed, redis_setex, log, emit. simpl.
    apply insert_insert_eq.
Qed.

(** ** The consume loop *)

Section ConsumeFacts.

Variable settings : WorkerSettings.
Variable registry : gmap string Handler.
Variable lax_int : json -> option Z.
Variable uuid4 : nat -> string.
Variable isoformat : Q -> string.

#[local] Abbreviation deserialize := (deserialize lax_int uuid4 isoformat).
#[local] Abbreviation process_message :=
  (process_message settings registry lax_int uuid4 isoformat).
#[local] Abbreviation takes := (takes registry lax_int uuid4 isoformat).

Lemma consume_cons tag body rest w :
  consume settings registry lax_int uuid4 isoformat ((tag, body) :: rest) w
  = consume settings registry lax_int uuid4 isoformat rest
      (exec (process_message tag body) w).
Proof.
  destruct (callback_takes_a_path registry lax_int uuid4 isoformat body w)
    as [p Hp].
  destruct (callback_on_path settings _ _ _ _ tag body w p Hp) as [Hout _].
  cbn [consume]. unfold bind, outcome, exec in *.
  destruct (process_message tag body w) as [r w1]. simpl in *. by subst r.
Qed.

Lemma path_events_settle tag p :
  settled_tags (path_events settings tag p) = [tag].
Proof.
  destruct p as [|task|task|task h|task h e]; try reflexivity;
    unfold path_events; rewrite !settled_tags_app, settled_tags_logs.
  - reflexivity.
  - unfold failure_events. by destruct (_ <=? _).
Qed.

#[local] Abbreviation consume :=
  (consume settings registry lax_int uuid4 isoformat).
#[local] Abbreviation path_events := (path_events settings).

Lemma consume_trace deliveries w :
  exists evs,
    outcome (consume deliveries) w = Ok tt /\
    trace (exec (consume deliveries) w) = trace w ++ evs /\
    settled_tags evs = map fst deliveries.
Proof.
  revert w. induction deliveries as [|[tag body] rest IH]; intros w.
  - exists []. by rewrite app_nil_r.
  - destruct (callback_takes_a_path registry lax_int uuid4 isoformat body w)
      as [p Hp].
    destruct (callback_on_path settings _ _ _ _ tag body w p Hp) as [_ Htr].
    destruct (IH (exec (process_message tag body) w)) as (evs & Hout & Ht & Hs).
    exists (path_events tag p ++ evs).
    unfold outcome, exec at 1. rewrite consume_cons.
    split; [exact Hout|]. split.
    + fold (exec (consume rest) (exec (process_message tag body) w)).
      by rewrite Ht, Htr, <- app_assoc.
    + by rewrite settled_tags_app, path_events_settle, Hs.
Qed.

(** X4: the consume loop outlives every message.  For any sequence of
    deliveries, bodies that do not decode and handlers that raise included,
    it returns normally, and the acks and nacks it issued are one per
    delivery, in delivery order, each with its delivery's tag. *)
Theorem consume_settles_every_delivery deliveries w :
  outcome (consume deliveries) w = Ok tt /\
  settled_tags (emitted (consume deliveries) w) = map fst deliveries.
Proof.
  destruct (consume_trace deliveries w) as (evs & Hout & Ht & Hs).
  split; [exact Hout|]. by rewrite (emitted_trace _ _ _ Ht).
Qed.

Hypothesis lax_int_exact : forall z, lax_int (JInt z) = Some z.

Lemma redeliveries_skipped task tags w :
  is_Some (redis w !! _key (task_id task)) ->
  trace (exec (consume (redeliveries task tags)) w)
  = trace w ++ flat_map (fun tag => path_events tag (Duplicate task)) tags.
Proof.
  revert w. induction tags as [|tag tags IH]; intros w Hdup.
  - simpl. by rewrite app_nil_r.
  - assert (Hp : takes (Decoded (model_dump task)) w (Duplicate task)).
    { split; [|exact Hdup]. unfold outcome.
      by rewrite deserialize_model_dump. }
    destruct (callback_on_path settings _ _ _ _ tag _ w _ Hp) as [_ Htr].
    destruct Hp as [Hdec _].
    destruct (duplicate_untouched settings registry _ _ _ tag _ w task
                Hdec Hdup) as [_ Hred].
    cbn [redeliveries map]. unfold exec at 1. rewrite consume_cons.
    match goal with
    | |- _ = ?rhs =>
        change (trace (exec (consume (redeliveries task tags))
                         (exec (process_message tag
                                  (Decoded (model_dump task))) w)) = rhs)
    end.
    rewrite IH by (by rewrite Hred).
    rewrite Htr, <- app_assoc. reflexivity.
Qed.

Lemma filter_duplicates (p : Event -> bool) task tags :
  (forall lvl msg status, p (Log lvl msg status) = false) ->
  (forall key, p (RedisExists key) = false) ->
  List.filter p (flat_map (fun tag => path_events tag (Duplicate task)) tags)
  = List.filter p (map BasicAck tags).
Proof.
  intros Hlog Hex. induction tags as [|t ts IH]; [reflexivity|].
  simpl in IH |- *. rewrite !Hlog, Hex. simpl. by rewrite IH.
Qed.

Lemma filter_acks_none (p : Event -> bool) (tags : list Z) :
  (forall t, p (BasicAck t) = false) ->
  List.filter p (map BasicAck tags) = [].
Proof.
  intros Hp. induction tags as [|t ts IH]; [reflexivity|].
  simpl. by rewrite Hp.
Qed.

Lemma filter_acks_all (p : Event -> bool) (tags : list Z) :
  (forall t, p (BasicAck t) = true) ->
  List.filter p (map BasicAck tags) = map BasicAck tags.
Proof.
  intros Hp. induction tags as [|t ts IH]; [reflexivity|].
  simpl. by rewrite Hp, IH.
Qed.

(** X5: a task that was processed is not processed again.  When an
    envelope whose handler returns is delivered any number of times in a
    row to a worker that has not seen it, the handler is invoked once, for
    the first delivery; the key is written once; and every delivery is
    acknowledged. *)
Theorem redelivery_runs_handler_once task (h : Handler) tag tags w :
  redis w !! _key (task_id task) = None ->
  registry !! task_type task = Some h ->
  h_raises (h task) = None ->
  outcome (consume (redeliveries task (tag :: tags))) w = Ok tt /\
  List.filter is_invoke
    (emitted (consume (redeliveries task (tag :: tags))) w)
    = [Invoke (task_type task) task] /\
  List.filter is_setex
    (emitted (consume (redeliveries task (tag :: tags))) w)
    = [RedisSetex (_key (task_id task)) (REDIS_TASK_TTL settings)
         "processed"] /\
  List.filter is_settlement
    (emitted (consume (redeliveries task (tag :: tags))) w)
    = map BasicAck (tag :: tags).
Proof.
  intros Hnew Hreg Hok.
  assert (Hp : takes (Decoded (model_dump task)) w (Succeeded task h)).
  { repeat split; try assumption. unfold outcome.
    by rewrite deserialize_model_dump. }
  destruct (callback_on_path settings _ _ _ _ tag _ w _ Hp) as [_ Htr].
  destruct Hp as [Hdec _].
  pose proof (callback_success settings registry _ _ _ tag _ w task h
                Hdec Hnew Hreg Hok) as Hrun.
  assert (Hmarked : is_Some (redis (exec (process_message tag
                                (Decoded (model_dump task))) w)
                             !! _key (task_id task))).
  { unfold exec. rewrite Hrun. cbn [snd redis].
    rewrite lookup_insert_eq. eauto. }
  assert (Hall : trace (exec (consume (redeliveries task (tag :: tags))) w)
                 = trace w ++ path_events tag (Succeeded task h) ++
                   flat_map (fun tag => path_events tag (Duplicate task))
                     tags).
  { cbn [redeliveries map]. unfold exec at 1. rewrite consume_cons.
    match goal with
    | |- _ = ?rhs =>
        change (trace (exec (consume (redeliveries task tags))
                         (exec (process_message tag
                                  (Decoded (model_dump task))) w)) = rhs)
    end.
    rewrite redeliveries_skipped by exact Hmarked.
    by rewrite Htr, <- app_assoc. }
  split; [apply consume_settles_every_delivery|].
  rewrite (emitted_trace _ _ _ Hall).
  unfold path_events at 1 3 5.
  rewrite !List.filter_app, !filter_duplicates by reflexivity.
  rewrite !filter_logs by reflexivity. cbn [List.filter is_invoke is_setex
    is_settlement app].
  rewrite !filter_acks_none, filter_acks_all by reflexivity.
  repeat split.
Qed.

End ConsumeFacts.

(** ** The whole retry history of a task *)

Section RetryHistory.

Variable settings : WorkerSettings.
Variable registry : gmap string Handler.
Variable lax_int : json -> option Z.
Variable uuid4 : nat -> string.
Variable isoformat : Q -> string.

Hypothesis lax_int_exact : forall z, lax_int (JInt z) = Some z.

#[local] Abbreviation process_message :=
  (process_message settings registry lax_int uuid4 isoformat).
#[local] Abbreviation deliver :=
  (deliver settings registry lax_int uuid4 isoformat).
#[local] Abbreviation takes := (takes registry lax_int uuid4 isoformat).
#[local] Abbreviation retry_publishes := (retry_publishes settings).

Lemma failing_delivery_step n tag task (h : Handler) e w :
  (EXCHANGE_NAME settings =? DLQ_EXCHANGE settings)%string = false ->
  registry !! task_type task = Some h ->
  h_raises (h task) = Some e ->
  redis w !! _key (task_id task) = None ->
  trace (exec (process_message tag (Decoded (model_dump task))) w)
    = trace w ++ path_events settings tag (Failed task h e) /\
  redis (exec (process_message tag (Decoded (model_dump task))) w)
    = redis w /\
  deliver (S n) tag (Decoded (model_dump task)) w =
    if retry_count task + 1 <=? effective_budget settings task then
      let (k, w') :=
        deliver n (tag + 1)
          (Decoded (model_dump (set_retry_count task (retry_count task + 1))))
          (exec (process_message tag (Decoded (model_dump task))) w) in
      (S k, w')
    else (1%nat, exec (process_message tag (Decoded (model_dump task))) w).
Proof.
  intros Hex Hreg Hfail Hnew.
  assert (Hp : takes (Decoded (model_dump task)) w (Failed task h e)).
  { repeat split; try assumption. unfold outcome.
    by rewrite deserialize_model_dump. }
  destruct (callback_on_path settings _ _ _ _ tag _ w _ Hp) as [_ Htr].
  destruct Hp as [Hdec _].
  destruct (handler_failure_untouched settings registry _ _ _ tag _ w task h e
              Hdec Hnew Hreg Hfail) as [_ Hred].
  split; [exact Htr|]. split; [exact Hred|].
  rewrite deliver_S. cbv zeta. rewrite Htr, drop_app_length.
  unfold path_events, failure_events.
  rewrite !last_published_app, last_published_logs.
  destruct (_ <=? _); simpl.
  - by rewrite !String.eqb_refl.
  - by rewrite String.eqb_sym, Hex.
Qed.

Lemma retry_publishes_S task k :
  (EXCHANGE_NAME settings, ROUTING_KEY settings,
   Decoded (model_dump (set_retry_count task (retry_count task + 1))))
  :: retry_publishes (set_retry_count task (retry_count task + 1)) k
  = retry_publishes task (S k).
Proof.
  unfold retry_publishes.
  rewrite !retry_count_set, !set_retry_count_twice.
  cbn [seq map app]. rewrite <- (seq_shift k 1), map_map.
  change (Z.of_nat 1) with 1. f_equal. f_equal.
  - apply map_ext. intros i. rewrite set_retry_count_twice.
    do 4 f_equal. lia.
  - do 5 f_equal. lia.
Qed.

Lemma failing_task_history k :
  forall n tag task (h : Handler) w,
    (EXCHANGE_NAME settings =? DLQ_EXCHANGE settings)%string = false ->
    registry !! task_type task = Some h ->
    (forall t, is_Some (h_raises (h t))) ->
    effective_budget settings task = retry_count task + Z.of_nat k ->
    redis w !! _key (task_id task) = None ->
    (k < n)%nat ->
    exists w' evs,
      deliver n tag (Decoded (model_dump task)) w = (S k, w') /\
      trace w' = trace w ++ evs /\
      publishes evs = retry_publishes task k /\
      redis w' = redis w.
Proof.
  induction k as [|k IH]; intros n tag task h w Hex Hreg Hfails Hb Hnew Hn;
    (destruct n as [|m]; [lia|]);
    destruct (Hfails task) as [e He];
    destruct (failing_delivery_step m tag task h e w Hex Hreg He Hnew)
      as (Htr & Hred & Hd).
  - assert (Hgt : (retry_count task + 1 <=? effective_budget settings task)
                  = false) by (apply Z.leb_gt; lia).
    rewrite Hgt in Hd.
    eexists _, _. split; [exact Hd|]. split; [exact Htr|].
    split; [|exact Hred].
    unfold path_events, failure_events. rewrite Hgt.
    rewrite !publishes_app, publishes_logs. unfold retry_publishes.
    cbn. do 5 f_equal. lia.
  - assert (Hle : (retry_count task + 1 <=? effective_budget settings task)
                  = true) by (apply Z.leb_le; lia).
    rewrite Hle in Hd.
    destruct (IH m (tag + 1) (set_retry_count task (retry_count task + 1)) h
                (exec (process_message tag (Decoded (model_dump task))) w))
      as (w' & evs & Hd' & Htr' & Hpub & Hred'); try assumption.
    + unfold effective_budget in *. rewrite retry_count_set.
      cbn [max_retries set_retry_count]. lia.
    + by rewrite Hred.
    + lia.
    + exists w', (path_events settings tag (Failed task h e) ++ evs).
      split; [by rewrite Hd, Hd'|].
      split; [by rewrite Htr', Htr, <- app_assoc|].
      split; [|by rewrite Hred', Hred].
      rewrite publishes_app, Hpub, <- retry_publishes_S.
      unfold path_events, failure_events. rewrite Hle.
      rewrite !publishes_app, publishes_logs. reflexivity.
Qed.


End RetryHistory.

(** ** Which bodies become envelopes *)

Section Acceptance.

Variable settings : WorkerSettings.
Variable registry : gmap string Handler.
Variable lax_int : json -> option Z.
Variable uuid4 : nat -> string.
Variable isoformat : Q -> string.

#[local] Abbreviation deserialize := (deserialize lax_int uuid4 isoformat).
#[local] Abbreviation process_message :=
  (process_message settings registry lax_int uuid4 isoformat).
#[local] Abbreviation well_formed := (well_formed lax_int).

Lemma str_field_Some v s : str_field v = Some s -> v = JStr s.
Proof. destruct v; simpl; congruence. Qed.

Lemma accepted_is_well_formed o w t :
  outcome (deserialize (Decoded (JObj o))) w = Ok t -> well_formed o.
Proof.
  unfold outcome, deserialize. rewrite TaskPayload_init_run.
  unfold well_formed, absent_or_valid, field_value. cbn [fst].
  destruct (o !! "task_type") as [v2|]; [|
    by destruct (o !! "task_id") as [v1|]; [destruct (str_field v1)|]].
  destruct (str_field v2) as [ty|] eqn:E2; [|
    by destruct (o !! "task_id") as [v1|]; [destruct (str_field v1)|]].
  apply str_field_Some in E2 as ->.
  destruct (o !! "task_id") as [v1|]; [destruct (str_field v1)|];
  (destruct (o !! "payload") as [v3|]; [destruct (dict_field v3)|]);
  (destruct (o !! "retry_count") as [v4|]; [destruct (lax_int v4)|]);
  (destruct (o !! "created_at") as [v5|]; [destruct (str_field v5)|]);
  (destruct (o !! "max_retries") as [v6|];
     [destruct (optional_int_field lax_int v6)|]);
  intros H; try discriminate H; repeat split; eauto.
Qed.


End Acceptance.

(** ** Starting the worker *)

Section EntrypointFacts.

Variable settings : WorkerSettings.
Variable registry : gmap string Handler.
Variable lax_int : json -> option Z.
Variable uuid4 : nat -> string.
Variable isoformat : Q -> string.

#[local] Abbreviation consume :=
  (consume settings registry lax_int uuid4 isoformat).
#[local] Abbreviation start_worker_attempt :=
  (start_worker_attempt settings registry lax_int uuid4 isoformat).
#[local] Abbreviation start_worker_loop :=
  (start_worker_loop settings registry lax_int uuid4 isoformat).
#[local] Abbreviation start_worker :=
  (start_worker settings registry lax_int uuid4 isoformat).
#[local] Abbreviation topology_events := (topology_events settings).
#[local] Abbreviation ready_events := (ready_events settings).

(** What the [except AMQPConnectionError] clause does at [attempt]. *)
Lemma connection_error_clause attempt (a : Attempt) w :
  a = Refused ->
  start_worker_attempt attempt a w =
    if Nat.eqb attempt STARTUP_RETRY_ATTEMPTS then
      (Raise (AMQPConnectionError "connection refused"),
       record_events w
         [Log INFO "Connecting to RabbitMQ" "connecting";
          Log WARNING "RabbitMQ not available yet — retrying" "";
          Log ERROR "Exhausted RabbitMQ connection attempts — exiting"
            "fatal"])
    else
      (Ok NextAttempt,
       {| redis := redis w; clock := (clock w + STARTUP_RETRY_DELAY)%Q;
          entropy := entropy w;
          trace := trace w ++
            [Log INFO "Connecting to RabbitMQ" "connecting";
             Log WARNING "RabbitMQ not available yet — retrying" "";
             Sleep STARTUP_RETRY_DELAY] |}).
Proof.
  intros ->.
  unfold start_worker_attempt, try_except2, bind, log, emit, sleep, raise,
    worker_get_connection, record_events. simpl.
  destruct (Nat.eqb attempt STARTUP_RETRY_ATTEMPTS); simpl;
    rewrite <- !app_assoc; reflexivity.
Qed.

Lemma bind_run {A B} (m : M A) (k : A -> M B) w a w' :
  m w = (Ok a, w') -> bind m k w = k a w'.
Proof. intros H. unfold bind. by rewrite H. Qed.

Lemma bind_emit {B} e (k : unit -> M B) w :
  bind (emit e) k w = k tt (record_events w [e]).
Proof. reflexivity. Qed.

Lemma declare_infrastructure_run w :
  _declare_infrastructure settings w
  = (Ok tt, record_events w topology_events).
Proof.
  unfold _declare_infrastructure. rewrite !bind_emit, emit_run.
  by rewrite !record_events_app.
Qed.

Lemma accepted_attempt attempt c w :
  start_worker_attempt attempt (Accepted c) w =
    let w1 := exec (consume (incoming c (TASK_QUEUE settings)))
                (record_events w ready_events) in
    match ending c with
    | ConsumeReturns => (Ok NextAttempt, w1)
    | ConnectionLost =>
        if Nat.eqb attempt STARTUP_RETRY_ATTEMPTS then
          (Raise (AMQPConnectionError "connection lost"),
           record_events w1
             [Log WARNING "RabbitMQ not available yet — retrying" "";
              Log ERROR "Exhausted RabbitMQ connection attempts — exiting"
                "fatal"])
        else
          (Ok NextAttempt,
           {| redis := redis w1; clock := (clock w1 + STARTUP_RETRY_DELAY)%Q;
              entropy := entropy w1;
              trace := trace w1 ++
                [Log WARNING "RabbitMQ not available yet — retrying" "";
                 Sleep STARTUP_RETRY_DELAY] |})
    | Interrupted =>
        (Ok Break, record_events w1 [Log INFO "Worker stopped by user"
                                       "stopped"])
    end.
Proof.
  cbv zeta.
  destruct (consume_trace settings registry lax_int uuid4 isoformat
              (incoming c (TASK_QUEUE settings))
              (record_events w ready_events)) as (evs & Hout & _).
  unfold start_worker_attempt, try_except2, log.
  rewrite bind_emit.
  rewrite (bind_run (worker_get_connection (Accepted c)) _ _ c
             (record_events (record_events w _) [Connect])) by reflexivity.
  cbv zeta.
  rewrite (bind_run _ _ _ _ _ (declare_infrastructure_run _)).
  rewrite bind_emit, !record_events_app.
  unfold start_consuming, basic_consume, basic_qos. cbn [consumer].
  change ([Log INFO "Connecting to RabbitMQ" "connecting"] ++
          [Connect] ++ topology_events ++
          [Log INFO "Worker ready — waiting for tasks" "ready"])
    with ready_events.
  unfold outcome, exec in *. unfold bind at 1 2.
  destruct (consume _ _) as [r w1]. cbn [fst snd] in *. subst r.
  unfold bind, ret, raise, emit, sleep, record_events.
  destruct (ending c); cbn; [reflexivity| |reflexivity].
  destruct (Nat.eqb attempt STARTUP_RETRY_ATTEMPTS); cbn;
    rewrite <- ?app_assoc; reflexivity.
Qed.

Lemma start_worker_loop_S script attempt count w :
  start_worker_loop script attempt (S count) w =
    match start_worker_attempt attempt (script attempt) w with
    | (Ok NextAttempt, w') => start_worker_loop script (S attempt) count w'
    | (Ok Break, w') => (Ok tt, w')
    | (Raise e, w') => (Raise e, w')
    end.
Proof.
  change (start_worker_loop script attempt (S count) w)
    with (bind (start_worker_attempt attempt (script attempt))
            (fun flow => match flow with
                         | NextAttempt =>
                             start_worker_loop script (S attempt) count
                         | Break => ret tt
                         end) w).
  unfold bind. by destruct (start_worker_attempt _ _ _) as [[[|]|e] w'].
Qed.

Lemma skip_refusals script c :
  forall a r w,
    (forall i, (a <= i < a + c)%nat -> script i = Refused) ->
    (a + c <= STARTUP_RETRY_ATTEMPTS)%nat ->
    exists w',
      start_worker_loop script a (c + r) w
      = start_worker_loop script (a + c) r w' /\
      trace w' = trace w ++ concat (repeat refusal_events c) /\
      redis w' = redis w.
Proof.
  induction c as [|c IH]; intros a r w Hs Hle.
  - exists w. rewrite Nat.add_0_r, app_nil_r. auto.
  - cbn [Nat.add]. rewrite start_worker_loop_S.
    rewrite connection_error_clause by (apply Hs; lia).
    assert (Hne : Nat.eqb a STARTUP_RETRY_ATTEMPTS = false)
      by (apply Nat.eqb_neq; lia).
    rewrite Hne.
    edestruct (IH (S a) r) as (w' & Hrun & Htr & Hred);
      [intros i Hi; apply Hs; lia|lia|].
    exists w'. split; [|split].
    + rewrite Hrun. f_equal. lia.
    + rewrite Htr. cbn [trace repeat concat]. by rewrite <- app_assoc.
    + rewrite Hred. reflexivity.
Qed.

(** X8: if the broker refuses the connection at all ten attempts,
    [start_worker] gives up: it raises the connection error of the tenth
    attempt.  It waited 5 seconds after each of the first nine refusals and
    not after the last, opened no connection and declared nothing. *)
Theorem start_worker_gives_up_after_ten_refusals script w :
  (forall i, (1 <= i <= 10)%nat -> script i = Refused) ->
  outcome (start_worker script) w
    = Raise (AMQPConnectionError "connection refused") /\
  emitted (start_worker script) w =
    concat (repeat [Log INFO "Connecting to RabbitMQ" "connecting";
                    Log WARNING "RabbitMQ not available yet — retrying" "";
                    Sleep 5] 9) ++
    [Log INFO "Connecting to RabbitMQ" "connecting";
     Log WARNING "RabbitMQ not available yet — retrying" "";
     Log ERROR "Exhausted RabbitMQ connection attempts — exiting" "fatal"].
Proof.
  intros Hs.
  destruct (skip_refusals script 9%nat 1%nat 1%nat w) as (w' & Hrun & Htr & _);
    [intros i Hi; apply Hs; lia|unfold STARTUP_RETRY_ATTEMPTS; lia|].
  assert (Hall : start_worker script w =
            (Raise (AMQPConnectionError "connection refused"),
             record_events w'
               [Log INFO "Connecting to RabbitMQ" "connecting";
                Log WARNING "RabbitMQ not available yet — retrying" "";
                Log ERROR "Exhausted RabbitMQ connection attempts — exiting"
                  "fatal"])).
  { change (start_worker script w) with (start_worker_loop script 1 (9 + 1) w).
    rewrite Hrun. cbn [Nat.add]. rewrite start_worker_loop_S.
    rewrite connection_error_clause by (apply Hs; lia). reflexivity. }
  split; [unfold outcome; by rewrite Hall|].
  apply emitted_trace. unfold exec. rewrite Hall. cbn [snd record_events trace].
  rewrite Htr, <- app_assoc. reflexivity.
Qed.


Lemma connection_errors_exhaust script count :
  forall a w,
    (a + count = 11)%nat -> (1 <= count)%nat ->
    (forall i, (a <= i <= 10)%nat ->
       script i = Refused \/
       exists c, script i = Accepted c /\ ending c = ConnectionLost) ->
    exists e, outcome (start_worker_loop script a count) w = Raise e /\
              is_AMQPConnectionError e = true.
Proof.
  induction count as [|count IH]; intros a w Ha Hc Hs; [lia|].
  unfold outcome. rewrite start_worker_loop_S.
  destruct (Nat.eq_dec count 0%nat) as [->|Hpos].
  - assert (a = 10)%nat as -> by lia.
    destruct (Hs 10%nat) as [Hr|(c & Hacc & Hend)]; [lia| |].
    + rewrite connection_error_clause by exact Hr. cbn. eauto.
    + rewrite Hacc, accepted_attempt. cbv zeta. rewrite Hend. cbn. eauto.
  - assert (Hne : Nat.eqb a STARTUP_RETRY_ATTEMPTS = false)
      by (apply Nat.eqb_neq; unfold STARTUP_RETRY_ATTEMPTS; lia).
    destruct (Hs a) as [Hr|(c & Hacc & Hend)]; [lia| |].
    + rewrite connection_error_clause by exact Hr. rewrite Hne.
      apply IH; [lia|lia|intros i Hi; apply Hs; lia].
    + rewrite Hacc, accepted_attempt. cbv zeta. rewrite Hend, Hne.
      apply IH; [lia|lia|intros i Hi; apply Hs; lia].
Qed.


End EntrypointFacts.

(** ** The producer *)

Section ProducerFacts.

Variable settings : Producer.ProducerSettings.

#[local] Abbreviation producer_topology_events :=
  (producer_topology_events settings).
#[local] Abbreviation publish_events := (publish_events settings).

Lemma producer_declare_run w :
  Producer._declare_infrastructure settings w
  = (Ok tt, record_events w producer_topology_events).
Proof.
  unfold Producer._declare_infrastructure. rewrite !bind_emit, emit_run.
  by rewrite !record_events_app.
Qed.

Lemma publish_task_run fault task w :
  Producer.publish_task settings fault task w
  = (publish_outcome fault, record_events w (publish_events fault task)).
Proof.
  unfold Producer.publish_task, Producer._get_connection.
  destruct fault as [| |e]; cbn [publish_outcome publish_events].
  - rewrite bind_emit.
    unfold try_finally, try_except_when.
    rewrite (bind_run _ _ _ _ _ (producer_declare_run _)). cbv zeta.
    unfold Producer.basic_publish, log. rewrite bind_emit, !emit_run.
    cbn [snd]. by rewrite !record_events_app.
  - unfold bind, raise. by rewrite record_events_nil.
  - rewrite bind_emit.
    unfold try_finally, try_except_when.
    rewrite (bind_run _ _ _ _ _ (producer_declare_run _)). cbv zeta.
    unfold Producer.basic_publish, log, bind at 1, raise.
    destruct (is_AMQPError e).
    + rewrite bind_emit. unfold raise. rewrite emit_run. cbn [snd].
      by rewrite !record_events_app.
    + rewrite emit_run. cbn [snd]. by rewrite !record_events_app.
Qed.

Lemma publishes_producer_topology : publishes producer_topology_events = [].
Proof. reflexivity. Qed.

(** X11: [publish_task] on each of its paths.  Without a fault it returns
    and has published exactly one message, the envelope, to the main
    exchange under the main routing key, after declaring the topology.  When
    the connection is refused it raises before anything is opened.  When
    [basic_publish] raises, the error is passed on, nothing was published,
    and the failure is logged exactly when the error is an [AMQPError].  On
    every path the connection is closed if and only if it was opened. *)
Theorem publish_task_paths fault task w :
  outcome (Producer.publish_task settings fault task) w
    = match fault with
      | Producer.NoFault => Ok tt
      | Producer.ConnectionRefused =>
          Raise (AMQPConnectionError "connection refused")
      | Producer.PublishRaises e => Raise e
      end /\
  publishes (emitted (Producer.publish_task settings fault task) w)
    = match fault with
      | Producer.NoFault =>
          [(Producer.EXCHANGE_NAME settings, Producer.ROUTING_KEY settings,
            Decoded (model_dump task))]
      | _ => []
      end /\
  List.filter is_close (emitted (Producer.publish_task settings fault task) w)
    = map (fun _ => CloseConnection)
        (List.filter is_connect
           (emitted (Producer.publish_task settings fault task) w)) /\
  existsb is_connect (emitted (Producer.publish_task settings fault task) w)
    = match fault with Producer.ConnectionRefused => false | _ => true end /\
  (forall e, fault = Producer.PublishRaises e ->
     In (Log ERROR "Failed to publish task" "")
        (emitted (Producer.publish_task settings fault task) w)
     <-> is_AMQPError e = true).
Proof.
  assert (Hem : emitted (Producer.publish_task settings fault task) w
                = publish_events fault task)
    by (apply emitted_record; unfold exec; by rewrite publish_task_run).
  rewrite Hem. unfold outcome. rewrite publish_task_run. cbn [fst].
  split; [by destruct fault|].
  split; [destruct fault as [| |e]; try reflexivity;
          cbn; by destruct (is_AMQPError e)|].
  split; [destruct fault as [| |e]; try reflexivity;
          cbn; by destruct (is_AMQPError e)|].
  split; [by destruct fault|].
  intros e ->. cbn. destruct (is_AMQPError e); cbn; split; intros H;
    try done; try (by auto 20).
  repeat destruct H as [H|H]; try discriminate H; done.
Qed.

Lemma route_run (message log_message : string) fault task w :
  (failed <- try_except_when is_Exception
               (Producer.publish_task settings fault task ;;; ret None)
               (fun exc =>
                  log ERROR log_message "" ;;;
                  ret (Some (Producer.HttpError
                               Producer.HTTP_503_SERVICE_UNAVAILABLE
                               ("Failed to publish task: " +:+ exn_msg exc)))) ;;
   match failed with
   | Some error => ret error
   | None =>
       ret (Producer.Responded
              {| Producer.response_task_id := task_id task;
                 Producer.response_status := "queued";
                 Producer.response_message := message;
                 Producer.response_created_at := created_at task |})
   end) w
  = match fault with
    | Producer.NoFault =>
        (Ok (Producer.Responded
               {| Producer.response_task_id := task_id task;
                  Producer.response_status := "queued";
                  Producer.response_message := message;
                  Producer.response_created_at := created_at task |}),
         record_events w (publish_events fault task))
    | _ =>
        if is_Exception (fault_error fault)
        then (Ok (Producer.HttpError 503
                    ("Failed to publish task: "
                     +:+ exn_msg (fault_error fault))),
              record_events w (publish_events fault task ++
                               [Log ERROR log_message ""]))
        else (Raise (fault_error fault),
              record_events w (publish_events fault task))
    end.
Proof.
  unfold bind at 1, try_except_when, bind at 1.
  rewrite publish_task_run.
  destruct fault as [| |e]; cbn [publish_outcome fault_error];
    [| |destruct (is_Exception e)];
    unfold ret, bind, log; rewrite ?emit_run, ?record_events_app; reflexivity.
Qed.


(** X13: the failure-simulation route publishes the submitted envelope with
    its [task_type] replaced by [fail_task] and every other field kept, and
    answers with the envelope's own id and creation time.  In the worker's
    registry that type is bound to a handler that raises on every envelope,
    so the task goes down the retry path. *)
Theorem submit_failing_task_forces_the_failing_type task w :
  outcome (Producer.submit_failing_task settings Producer.NoFault task) w
    = Ok (Producer.Responded
            {| Producer.response_task_id := task_id task;
               Producer.response_status := "queued";
               Producer.response_message :=
                 "Failure-simulation task queued. Watch worker logs for retries and DLQ.";
               Producer.response_created_at := created_at task |}) /\
  publishes
    (emitted (Producer.submit_failing_task settings Producer.NoFault task) w)
    = [(Producer.EXCHANGE_NAME settings, Producer.ROUTING_KEY settings,
        Decoded (model_dump
                   {| task_id := task_id task; task_type := "fail_task";
                      payload := payload task;
                      retry_count := retry_count task;
                      created_at := created_at task;
                      max_retries := max_retries task |}))] /\
  exists h : Handler,
    TASK_HANDLERS !! "fail_task" = Some h /\
    forall t, is_Some (h_raises (h t)).
Proof.
  unfold outcome, emitted, exec, Producer.submit_failing_task. cbv zeta.
  rewrite route_run. cbn [fst snd record_events trace].
  split; [reflexivity|]. split; [by rewrite drop_app_length|].
  exists _handle_fail_task. split; [reflexivity|]. intros t. by eexists.
Qed.

End ProducerFacts.

(** ** The producer and the worker together *)


(** ** The registered handlers *)


(** ** A delivery and the other tasks *)

Section DedupFrame.

Variable settings : WorkerSettings.
Variable registry : gmap string Handler.
Variable lax_int : json -> option Z.
Variable uuid4 : nat -> string.
Variable isoformat : Q -> string.

#[local] Abbreviation deserialize := (deserialize lax_int uuid4 isoformat).
#[local] Abbreviation process_message :=
  (process_message settings registry lax_int uuid4 isoformat).

(** X16: a delivery can mark no task but its own.  For any task id other
    than the one the body decodes to (and for every task id when the body
    does not decode), the dedup store answers after the delivery as it did
    before. *)
Theorem callback_marks_only_its_own_task tag body w tid :
  (forall task, outcome (deserialize body) w = Ok task ->
                task_id task <> tid) ->
  redis (exec (process_message tag body) w) !! _key tid
  = redis w !! _key tid.
Proof.
  intros Hother.
  destruct (outcome (deserialize body) w) as [task|e] eqn:H.
  2: { by destruct (undecodable_untouched settings registry _ _ _ tag body w
                      e H) as [_ ->]. }
  destruct (redis w !! _key (task_id task)) as [v|] eqn:Hnew.
  { destruct (duplicate_untouched settings registry _ _ _ tag body w task H)
      as [_ ->]; [by rewrite Hnew|reflexivity]. }
  destruct (registry !! task_type task) as [h|] eqn:Hreg.
  2: { by destruct (unknown_type_untouched settings registry _ _ _ tag body w
                      task H Hnew Hreg) as [_ ->]. }
  destruct (h_raises (h task)) as [e|] eqn:Hh.
  { by destruct (handler_failure_untouched settings registry _ _ _ tag body w
                   task h e H Hnew Hreg Hh) as [_ ->]. }
  unfold exec.
  rewrite (callback_success settings registry _ _ _ tag body w task h
             H Hnew Hreg Hh).
  cbn [snd redis]. apply lookup_insert_ne.
  intros Heq. apply (Hother task eq_refl). by apply _key_inj.
Qed.

End DedupFrame.

(** ** How the worker can end *)

Section EntrypointEnds.

Variable settings : WorkerSettings.
Variable registry : gmap string Handler.
Variable lax_int : json -> option Z.
Variable uuid4 : nat -> string.
Variable isoformat : Q -> string.

#[local] Abbreviation start_worker_loop :=
  (start_worker_loop settings registry lax_int uuid4 isoformat).
#[local] Abbreviation start_worker :=
  (start_worker settings registry lax_int uuid4 isoformat).

Lemma loop_ends script count :
  forall a w,
    (a + count = 11)%nat ->
    outcome (start_worker_loop script a count) w = Ok tt \/
    exists e,
      outcome (start_worker_loop script a count) w = Raise e /\
      is_AMQPConnectionError e = true /\
      (script 10%nat = Refused \/
       exists c, script 10%nat = Accepted c /\ ending c = ConnectionLost).
Proof.
  induction count as [|count IH]; intros a w Ha; [by left|].
  unfold outcome.
  rewrite (start_worker_loop_S settings registry lax_int uuid4 isoformat).
  destruct (script a) as [|c] eqn:Hs.
  - rewrite (connection_error_clause settings registry lax_int uuid4
               isoformat a Refused w eq_refl).
    destruct (Nat.eqb_spec a STARTUP_RETRY_ATTEMPTS) as [->|Hne].
    + right. eexists. split; [reflexivity|]. split; [reflexivity|]. by left.
    + apply IH. lia.
  - rewrite (accepted_attempt settings registry lax_int uuid4 isoformat).
    cbv zeta. destruct (ending c) eqn:Hend.
    + apply IH. lia.
    + destruct (Nat.eqb_spec a STARTUP_RETRY_ATTEMPTS) as [->|Hne].
      * right. eexists. split; [reflexivity|]. split; [reflexivity|].
        right. exists c. by split.
      * apply IH. lia.
    + by left.
Qed.


End EntrypointEnds.

(** X16 on the deployed worker: delivering the email task [T1] leaves the
    answer for task [T2] as it was. *)
Lemma callback_marks_only_its_own_task_witness :
  redis (exec (worker_process_message 1 (Decoded (model_dump email_task)))
           empty_world) !! _key "T2"
  = redis empty_world !! _key "T2".
Proof.
  apply (callback_marks_only_its_own_task default_settings TASK_HANDLERS
           exact_int counter_uuid fixed_isoformat 1
           (Decoded (model_dump email_task)) empty_world "T2").
  intros task H. vm_compute in H. injection H as <-. discriminate.
Defined.

(** ** The new facts on concrete inputs *)

(** X5 on the deployed worker: the email task delivered three times. *)
Lemma redelivery_runs_handler_once_witness :
  outcome (consume default_settings TASK_HANDLERS exact_int counter_uuid
             fixed_isoformat (redeliveries email_task [1; 2; 3]))
    empty_world = Ok tt /\
  List.filter is_invoke
    (emitted (consume default_settings TASK_HANDLERS exact_int counter_uuid
                fixed_isoformat (redeliveries email_task [1; 2; 3]))
       empty_world)
    = [Invoke (task_type email_task) email_task] /\
  List.filter is_setex
    (emitted (consume default_settings TASK_HANDLERS exact_int counter_uuid
                fixed_isoformat (redeliveries email_task [1; 2; 3]))
       empty_world)
    = [RedisSetex (_key (task_id email_task))
         (REDIS_TASK_TTL default_settings) "processed"] /\
  List.filter is_settlement
    (emitted (consume default_settings TASK_HANDLERS exact_int counter_uuid
                fixed_isoformat (redeliveries email_task [1; 2; 3]))
       empty_world)
    = map BasicAck [1; 2; 3].
Proof.
  apply (redelivery_runs_handler_once default_settings TASK_HANDLERS
           exact_int counter_uuid fixed_isoformat exact_int_exact
           email_task _handle_send_email 1 [2; 3] empty_world);
    reflexivity.
Defined.


(** X8 with a broker that always refuses. *)
Lemma start_worker_gives_up_after_ten_refusals_witness :
  outcome (start_worker default_settings TASK_HANDLERS exact_int counter_uuid
             fixed_isoformat always_refusing) empty_world
    = Raise (AMQPConnectionError "connection refused") /\
  emitted (start_worker default_settings TASK_HANDLERS exact_int counter_uuid
             fixed_isoformat always_refusing) empty_world =
    concat (repeat [Log INFO "Connecting to RabbitMQ" "connecting";
                    Log WARNING "RabbitMQ not available yet — retrying" "";
                    Sleep 5] 9) ++
    [Log INFO "Connecting to RabbitMQ" "connecting";
     Log WARNING "RabbitMQ not available yet — retrying" "";
     Log ERROR "Exhausted RabbitMQ connection attempts — exiting" "fatal"].
Proof.
  apply (start_worker_gives_up_after_ten_refusals default_settings
           TASK_HANDLERS exact_int counter_uuid fixed_isoformat
           always_refusing empty_world).
  intros i Hi. reflexivity.
Defined.



